(** * Doge Proxy: the request relay and HTML rewriting pipeline of [server.js]

    A shallow embedding of [modifyHtml] and of the [/proxy/*] route handler,
    with the properties of the pipeline proved over it.

    Conventions of the embedding:
    - a JavaScript string is a [string] (its UTF-8 bytes; every pattern the
      code searches for is ASCII, so prefix and substring tests agree);
    - a thrown [Error] is [Throw e], carrying [message e];
    - the DOM built by jsdom is an arena of elements: an element's identity
      is its index in [nodes], and the arena lists the parsed elements in
      tree order, which is the order [querySelectorAll] reports them in;
    - the WHATWG [URL] constructor, the jsdom parser, its DOM calls and its
      serializer, and the UTF-8 decoder are platform code, taken as
      parameters of a section; each of them may throw where the library may;
    - [fetch] is the handler's one interaction with the outside world, kept
      as a visible step of the handler's run;
    - of express, the embedding has what the handler's calls rely on:
      [res.set], [res.status], [res.send], [res.redirect] and the
      [X-Powered-By] header that express sets before any middleware runs. *)

From Stdlib Require Import ZArith Ascii String.
From stdpp Require Import base option list strings gmap.

(* ===================================================================== *)
(** ** JavaScript values used by the code *)

Record Error := { message : string }.

Inductive completion (A : Type) : Type :=
| Normal (a : A)
| Throw (e : Error).
Arguments Normal {A} a.
Arguments Throw {A} e.

(** [s.startsWith(p)] *)
Definition startsWith (s p : string) : bool := String.prefix p s.

(** [s.includes(sub)] *)
Fixpoint includes (s sub : string) : bool :=
  String.prefix sub s ||
  match s with
  | EmptyString => false
  | String _ s' => includes s' sub
  end.

(** [!s] for a string [s]: only the empty string is falsy. *)
Definition isEmpty (s : string) : bool :=
  match s with EmptyString => true | _ => false end.

(** [v || d] for [v] a string or [undefined]/[null]. *)
Definition orDefault (v : option string) (d : string) : string :=
  match v with
  | Some s => if isEmpty s then d else s
  | None => d
  end.

Definition mapAscii (f : ascii -> ascii) : string -> string :=
  fix go s :=
    match s with
    | EmptyString => EmptyString
    | String c s' => String (f c) (go s')
    end.

Definition lowerAscii (c : ascii) : ascii :=
  let n := nat_of_ascii c in
  if (Nat.leb 65 n && Nat.leb n 90)%bool then ascii_of_nat (n + 32) else c.

Definition upperAscii (c : ascii) : ascii :=
  let n := nat_of_ascii c in
  if (Nat.leb 97 n && Nat.leb n 122)%bool then ascii_of_nat (n - 32) else c.

(** [s.toLowerCase()] on the ASCII letters (header names are ASCII tokens). *)
Definition toLowerCase : string -> string := mapAscii lowerAscii.
Definition toUpperCase : string -> string := mapAscii upperAscii.

(** The double quote character, for the HTML literals of the source. *)
Definition dq : string := String "034"%char EmptyString.

(* ===================================================================== *)
(** ** The DOM as the rewriter uses it *)

Inductive Namespace := HTML | SVG | MathML.

Record Element := {
  namespaceURI : Namespace;
  localName : string;
  attributes : list (string * string);
  textContent : string;
  children : list nat
}.

(** [el.tagName]: upper case for an HTML element, the qualified name as
    written for an element in a foreign namespace. *)
Definition tagName (el : Element) : string :=
  match namespaceURI el with
  | HTML => toUpperCase (localName el)
  | _ => localName el
  end.

Fixpoint lookupAttr (name : string) (attrs : list (string * string)) : option string :=
  match attrs with
  | [] => None
  | (n, v) :: rest => if String.eqb n name then Some v else lookupAttr name rest
  end.

Fixpoint storeAttr (name value : string) (attrs : list (string * string))
  : list (string * string) :=
  match attrs with
  | [] => [(name, value)]
  | (n, v) :: rest =>
      if String.eqb n name then (n, value) :: rest
      else (n, v) :: storeAttr name value rest
  end.

(** [el.getAttribute(name)]; [None] is [null]. *)
Definition getAttribute (name : string) (el : Element) : option string :=
  lookupAttr name (attributes el).

(** [el.setAttribute(name, value)]: the first attribute of that name changes
    its value, or a new attribute is appended. *)
Definition setAttribute (name value : string) (el : Element) : Element :=
  {| namespaceURI := namespaceURI el;
     localName := localName el;
     attributes := storeAttr name value (attributes el);
     textContent := textContent el;
     children := children el |}.

(** [script.textContent = value]: the element's children are replaced by
    the one text.  The elements that were below it stay in the arena as
    objects but leave the document; [detachedByScripts] lists them. *)
Definition setTextContent (value : string) (el : Element) : Element :=
  {| namespaceURI := namespaceURI el;
     localName := localName el;
     attributes := attributes el;
     textContent := value;
     children := [] |}.

Record Document := {
  nodes : list Element;
  head : nat
}.

(** A selector [tag] or [tag[attr]]. *)
Record Selector := {
  selTag : string;
  selAttr : option string
}.

Definition matchesSelector (sel : Selector) (el : Element) : bool :=
  String.eqb (localName el) (selTag sel) &&
  match selAttr sel with
  | None => true
  | Some a => match getAttribute a el with Some _ => true | None => false end
  end.

Definition matchesAt (sel : Selector) (doc : Document) (i : nat) : bool :=
  match nodes doc !! i with
  | Some el => matchesSelector sel el
  | None => false
  end.

(** [document.querySelectorAll(sel)]: a static list of the matching elements,
    in tree order. *)
Definition querySelectorAll (sel : Selector) (doc : Document) : list nat :=
  List.filter (matchesAt sel doc) (seq 0 (length (nodes doc))).

(** [document.querySelector(sel)] *)
Definition querySelector (sel : Selector) (doc : Document) : option nat :=
  List.hd_error (querySelectorAll sel doc).

(** One call of a [forEach] callback that mutates the element it is given. *)
Definition mutate (f : Element -> Element) (doc : Document) (i : nat) : Document :=
  {| nodes := alter f i (nodes doc); head := head doc |}.

(** [list.forEach(el => ...)] over a static list of elements. *)
Definition forEach (ids : list nat) (f : Element -> Element) (doc : Document) : Document :=
  fold_left (mutate f) ids doc.

(** [parent.insertBefore(el, parent.firstChild)] for a new element [el]. *)
Definition insertFirstChild (parent : nat) (el : Element) (doc : Document) : Document :=
  let id := length (nodes doc) in
  {| nodes :=
       alter (fun p =>
                {| namespaceURI := namespaceURI p;
                   localName := localName p;
                   attributes := attributes p;
                   textContent := textContent p;
                   children := id :: children p |}) parent (nodes doc) ++ [el];
     head := head doc |}.

(** The children of element [i], as ids. *)
Definition childrenOf (els : list Element) (i : nat) : list nat :=
  match els !! i with
  | Some el => children el
  | None => []
  end.

(** Everything below the elements [ids]: their children, the children of
    those, and so on for [fuel] levels. *)
Fixpoint descendantsOf (fuel : nat) (els : list Element) (ids : list nat) : list nat :=
  match fuel with
  | O => []
  | S fuel' =>
      let kids := flat_map (childrenOf els) ids in
      kids ++ descendantsOf fuel' els kids
  end.

(** [document.querySelector(sel)] once the elements [detached] have been
    taken out of the document: they are still objects of the arena, but a
    query on the document no longer reports them. *)
Definition querySelectorAttached (sel : Selector) (doc : Document) (detached : list nat)
  : option nat :=
  List.hd_error
    (List.filter (fun i => negb (existsb (Nat.eqb i) detached))
       (querySelectorAll sel doc)).

(* ===================================================================== *)
(** ** URLs *)

Record URL := {
  href : string;
  origin : string
}.

(** [const PROXY_PREFIX = '/proxy/'] *)
Definition PROXY_PREFIX : string := "/proxy/".

Definition sel (tag attr : string) : Selector :=
  {| selTag := tag; selAttr := Some attr |}.

Definition linkSelectors : list Selector :=
  [ sel "a" "href"; sel "link" "href"; sel "script" "src"; sel "img" "src";
    sel "iframe" "src"; sel "embed" "src"; sel "object" "data";
    sel "source" "src"; sel "video" "src"; sel "audio" "src";
    sel "form" "action" ].

Definition scriptSelector : Selector := {| selTag := "script"; selAttr := None |}.
Definition baseSelector : Selector := {| selTag := "base"; selAttr := None |}.

(** The attribute the link loop reads and rewrites (lines 51-52). *)
Definition linkAttr (el : Element) : string :=
  let attr :=
    if String.eqb (tagName el) "A" || String.eqb (tagName el) "FORM"
    then "href" else "src" in
  if String.eqb (tagName el) "FORM" then "action" else attr.

(** The guard of lines 55-59 on a non-null value. *)
Definition notProxyable (originalValue : string) : bool :=
  isEmpty originalValue ||
  startsWith originalValue "#" ||
  startsWith originalValue "mailto:" ||
  startsWith originalValue "tel:" ||
  startsWith originalValue "javascript:".

(** The test of lines 84-86. *)
Definition frameBusting (content : string) : bool :=
  includes content "top.location" ||
  includes content "frame busting" ||
  includes content "if (top != self)".

(** The callback of the script loop (lines 82-89). *)
Definition neutralizeScript (script : Element) : Element :=
  let content := orDefault (Some (textContent script)) EmptyString in
  if frameBusting content
  then setTextContent "// Frame busting removed" script
  else script.

(** The script loop's test on element [i] of the document. *)
Definition neutralizedAt (doc : Document) (i : nat) : bool :=
  match nodes doc !! i with
  | Some script => frameBusting (orDefault (Some (textContent script)) EmptyString)
  | None => false
  end.

(** What the script loop takes out of the document: [script.textContent =]
    replaces the children of the script, so every element below a script
    that the loop neutralizes is detached.  [doc] is the document as the
    loop finds it. *)
Definition detachedByScripts (doc : Document) : list nat :=
  descendantsOf (length (nodes doc)) (nodes doc)
    (List.filter (neutralizedAt doc) (querySelectorAll scriptSelector doc)).

Section Platform.

(** [new URL(input, base)]; [new URL(input)] is [newURL input None]. *)
Variable newURL : string -> option string -> completion URL.

(** The callback of the link loop (lines 51-77). *)
Definition rewriteLink (targetUrl : string) (url : URL) (el : Element) : Element :=
  let attr := linkAttr el in
  match getAttribute attr el with
  | None => el
  | Some originalValue =>
      if notProxyable originalValue then el
      else
        match newURL originalValue (Some targetUrl) with
        | Throw _ => el
        | Normal resolved =>
            let resolvedUrl := href resolved in
            match newURL resolvedUrl None with
            | Throw _ => el
            | Normal reparsed =>
                let resolvedOrigin := origin reparsed in
                let el :=
                  if negb (String.eqb resolvedOrigin (origin url))
                  then setAttribute "rel" "noopener noreferrer"
                         (setAttribute "target" "_blank" el)
                  else el in
                setAttribute attr (PROXY_PREFIX +:+ resolvedUrl) el
            end
        end
  end.

(** [linkSelectors.forEach(selector => querySelectorAll(selector).forEach(...))] *)
Definition rewriteLinks (targetUrl : string) (url : URL)
    (selectors : list Selector) (doc : Document) : Document :=
  fold_left
    (fun d selector => forEach (querySelectorAll selector d) (rewriteLink targetUrl url) d)
    selectors doc.

(** The [base] element of lines 93-95. *)
Definition baseElement (url : URL) : Element :=
  {| namespaceURI := HTML;
     localName := "base";
     attributes := [("href", origin url +:+ "/"); ("target", "_blank")];
     textContent := EmptyString;
     children := [] |}.

(** The body of [modifyHtml] between parsing and serialization
    (lines 35-97). *)
Definition modifyDocument (targetUrl : string) (url : URL) (document : Document)
  : Document :=
  let document := rewriteLinks targetUrl url linkSelectors document in
  let detached := detachedByScripts document in
  let document :=
    forEach (querySelectorAll scriptSelector document) neutralizeScript document in
  match querySelectorAttached baseSelector document detached with
  | Some _ => document
  | None => insertFirstChild (head document) (baseElement url) document
  end.

End Platform.

(* ===================================================================== *)
(** ** Requests, upstream responses and the express response object *)

Record Request := {
  method : string;
  params0 : string;                       (* req.params[0] *)
  reqHeaders : list (string * string)     (* req.headers, names in lower case *)
}.

Record FetchInit := {
  initMethod : string;
  initHeaders : list (string * string);
  initRedirect : string
}.

(** What [fetch] resolves to: [headers] as [response.headers.forEach]
    enumerates them, [buffer] the outcome of [response.buffer()]. *)
Record UpstreamResponse := {
  status : Z;
  headers : list (string * string);
  buffer : completion (list Byte.byte)
}.

(** [response.headers.get(name)]: names compare without regard to case. *)
Fixpoint headersGet (name : string) (hs : list (string * string)) : option string :=
  match hs with
  | [] => None
  | (k, v) :: rest =>
      if String.eqb (toLowerCase k) (toLowerCase name) then Some v
      else headersGet name rest
  end.

(** JavaScript truthiness of a string-or-null. *)
Definition truthy (v : option string) : bool :=
  match v with
  | Some s => negb (isEmpty s)
  | None => false
  end.

Inductive Body :=
| Text (s : string)
| Bytes (b : list Byte.byte).

(** How the response was ended: [res.send(body)] or [res.redirect(url)]. *)
Inductive Sent :=
| Send (body : Body)
| Redirect (url : string).

(** The express response object at the moment the handler ends it: the
    status set so far, the headers set so far (stored under their lower-case
    names, as Node does) and the call that ended the response.  What
    [res.send] and [res.redirect] add on their own while ending the response
    (the [Location] header of a redirect, a content type for a string body,
    [Content-Length], [ETag]) is not part of the record. *)
Record Res := {
  statusCode : Z;
  resHeaders : gmap string string;
  sent : option Sent
}.

(** Node's [res.setHeader(name, value)]: the value is stored as given. *)
Definition res_setHeader (name value : string) (res : Res) : Res :=
  {| statusCode := statusCode res;
     resHeaders := <[toLowerCase name := value]> (resHeaders res);
     sent := sent res |}.

(** White space as [\s] sees it in a header value. *)
Definition isSpace (c : ascii) : bool :=
  let n := nat_of_ascii c in
  (Nat.leb 9 n && Nat.leb n 13) || Nat.eqb n 32.

Fixpoint skipSpaces (s : string) : string :=
  match s with
  | EmptyString => EmptyString
  | String c rest => if isSpace c then skipSpaces rest else s
  end.

(** [\s*charset\s*=] at the start of [s]. *)
Definition charsetAssignment (s : string) : bool :=
  match skipSpaces s with
  | String "c" (String "h" (String "a" (String "r" (String "s" (String "e"
      (String "t" rest)))))) => startsWith (skipSpaces rest) "="
  | _ => false
  end.

(** express's [charsetRegExp.test(value)], with
    [charsetRegExp = /;\s*charset\s*=/]. *)
Fixpoint hasCharset (value : string) : bool :=
  match value with
  | EmptyString => false
  | String c rest =>
      (Ascii.eqb c ";"%char && charsetAssignment rest) || hasCharset rest
  end.

(** [value.split(';')[0]] *)
Fixpoint beforeSemicolon (value : string) : string :=
  match value with
  | EmptyString => EmptyString
  | String c rest =>
      if Ascii.eqb c ";"%char then EmptyString else String c (beforeSemicolon rest)
  end.

(** [mime.charsets.lookup(type)] of the mime module express 4 uses: [UTF-8]
    for [text/*], [application/json] and [application/javascript]. *)
Definition charsetsLookup (mimeType : string) : option string :=
  if startsWith mimeType "text/" ||
     startsWith mimeType "application/javascript" ||
     startsWith mimeType "application/json"
  then Some "UTF-8" else None.

(** What express's [res.set('Content-Type', value)] stores: a value without
    a charset gets the charset of its type appended, when the type has one. *)
Definition expressContentType (value : string) : string :=
  if hasCharset value then value
  else
    match charsetsLookup (beforeSemicolon value) with
    | Some charset => value +:+ "; charset=" +:+ toLowerCase charset
    | None => value
    end.

(** The value [res.set(name, value)] stores under [name]. *)
Definition storedValue (name value : string) : string :=
  if String.eqb (toLowerCase name) "content-type"
  then expressContentType value
  else value.

(** express's [res.set(name, value)] *)
Definition res_set (name value : string) (res : Res) : Res :=
  res_setHeader name (storedValue name value) res.

(** [res.status(code)] *)
Definition res_status (code : Z) (res : Res) : Res :=
  {| statusCode := code; resHeaders := resHeaders res; sent := sent res |}.

(** [res.send(body)] *)
Definition res_send (body : Body) (res : Res) : Res :=
  {| statusCode := statusCode res; resHeaders := resHeaders res;
     sent := Some (Send body) |}.

(** [res.redirect(url)]: a 302 towards [url]. *)
Definition res_redirect (url : string) (res : Res) : Res :=
  {| statusCode := 302%Z; resHeaders := resHeaders res;
     sent := Some (Redirect url) |}.

(** [res.getHeader(name)] *)
Definition res_get (name : string) (res : Res) : option string :=
  resHeaders res !! toLowerCase name.

(** The response object as express hands it to the first middleware:
    status 200 and the [X-Powered-By] header express sets on every response
    (the application does not disable it). *)
Definition freshResponse : Res :=
  {| statusCode := 200%Z;
     resHeaders := {[ "x-powered-by" := "Express" ]};
     sent := None |}.

(** The cache configuration middleware (lines 20-23). *)
Definition cacheConfiguration (res : Res) : Res :=
  res_setHeader "Cache-Control" "no-cache, no-store, must-revalidate" res.

(** A run of the handler: it ends with a value, or awaits one [fetch]. *)
Inductive Proc (A : Type) : Type :=
| Ret (a : A)
| Fetch (url : string) (init : FetchInit) (k : completion UpstreamResponse -> Proc A).
Arguments Ret {A} a.
Arguments Fetch {A} url init k.

(** The outside world answers each [fetch]; [run] gives the handler's result
    and the requests it issued, in order.  It is the run in which every
    awaited promise settles, by resolving or by rejecting: the code sets no
    timeout, and a [fetch] or a body read that never settles leaves the
    response open, which no [run] describes. *)
Fixpoint run {A : Type}
    (world : string -> FetchInit -> completion UpstreamResponse) (p : Proc A)
  : A * list (string * FetchInit) :=
  match p with
  | Ret a => (a, [])
  | Fetch url init k =>
      let (a, calls) := run world (k (world url init)) in
      (a, (url, init) :: calls)
  end.

(** The scheme defaulting of lines 113-115. *)
Definition withProtocol (targetUrl : string) : string :=
  if negb (startsWith targetUrl "http://") && negb (startsWith targetUrl "https://")
  then "https://" +:+ targetUrl
  else targetUrl.

Definition userAgent : string :=
  "Mozilla/5.0 (Windows NT 10.0; Win64; x64) AppleWebKit/537.36 (KHTML, like Gecko) Chrome/120.0.0.0 Safari/537.36".

(** The second argument of [fetch] (lines 122-131). *)
Definition fetchInit (req : Request) (url : URL) : FetchInit :=
  {| initMethod := method req;
     initHeaders :=
       [ ("User-Agent", userAgent);
         ("Accept",
          orDefault (lookupAttr "accept" (reqHeaders req))
                    "text/html,application/xhtml+xml,*/*");
         ("Accept-Language",
          orDefault (lookupAttr "accept-language" (reqHeaders req))
                    "en-US,en;q=0.9");
         ("Referer", origin url) ];
     initRedirect := "manual" |}.

Definition errorPageBefore : string :=
"
<!DOCTYPE html>
<html>
<head>
    <meta charset=" +:+ dq +:+ "UTF-8" +:+ dq +:+ ">
    <title>Proxy Error</title>
    <style>
        body {
            font-family: Arial, sans-serif;
            background: linear-gradient(135deg, #1a1a2e, #16213e);
            color: white;
            min-height: 100vh;
            display: flex;
            align-items: center;
            justify-content: center;
            margin: 0;
        }
        .container {
            text-align: center;
            padding: 40px;
            background: rgba(255,255,255,0.1);
            border-radius: 16px;
            backdrop-filter: blur(10px);
            max-width: 500px;
        }
        h1 { color: #f9d423; margin-bottom: 20px; }
        p { color: #ccc; margin-bottom: 20px; line-height: 1.6; }
        .error { color: #ff4e50; font-family: monospace; margin: 20px 0; padding: 10px; background: rgba(255,78,80,0.2); border-radius: 8px; }
        a {
            display: inline-block;
            padding: 14px 28px;
            background: linear-gradient(90deg, #f9d423, #ff4e50);
            color: #1a1a2e;
            text-decoration: none;
            border-radius: 10px;
            font-weight: bold;
            transition: transform 0.2s;
        }
        a:hover { transform: scale(1.05); }
    </style>
</head>
<body>
    <div class=" +:+ dq +:+ "container" +:+ dq +:+ ">
        <h1>Dogecoin Proxy Error</h1>
        <p>Could not access the requested website.</p>
        <div class=" +:+ dq +:+ "error" +:+ dq +:+ ">".

(** The link back to the landing page in the error document. *)
Definition homeLink : string := "<a href=" +:+ dq +:+ "/" +:+ dq +:+ ">".

Definition errorPageAfter : string :=
"</div>
        " +:+ homeLink +:+ "Go Back Home</a>
    </div>
</body>
</html>
        ".

(** The template literal of lines 175-225, with [error.message] spliced in. *)
Definition errorPage (errorMessage : string) : string :=
  errorPageBefore +:+ errorMessage +:+ errorPageAfter.

(** The [catch] block of the handler (lines 173-226). *)
Definition errorResponder (error : Error) (res : Res) : Res :=
  res_send (Text (errorPage (message error))) (res_status 502%Z res).

Definition safeHeaders : list string :=
  ["content-type"; "content-length"; "cache-control"; "last-modified"; "etag"].

(** [array.includes(x)] on an array of strings. *)
Definition arrayIncludes (l : list string) (x : string) : bool :=
  existsb (String.eqb x) l.

(** The header filter of lines 162-166. *)
Definition copySafeHeaders (hs : list (string * string)) (res : Res) : Res :=
  fold_left
    (fun r kv =>
       if arrayIncludes safeHeaders (toLowerCase (fst kv))
       then res_set (fst kv) (snd kv) r
       else r)
    hs res.

(** The pass-through branch (lines 159-171). *)
Definition passThrough (response : UpstreamResponse) (buf : list Byte.byte) (res : Res)
  : Res :=
  let res := copySafeHeaders (headers response) res in
  let res := res_set "X-Proxy-By" "DogeProxy" res in
  let res := res_status (status response) res in
  res_send (Bytes buf) res.

(** The redirect test of line 134: when it holds, the value of
    [response.headers.get('location')] that the branch goes on to use. *)
Definition redirectLocation (response : UpstreamResponse) : option string :=
  if ((300 <=? status response) && (status response <? 400))%Z
  then
    let location := headersGet "location" (headers response) in
    if truthy location then location else None
  else None.

Section Pipeline.

Variable newURL : string -> option string -> completion URL.
(** [new JSDOM(html, { url })], giving [dom.window.document]. *)
Variable JSDOM : string -> string -> completion Document.
(** jsdom's own calls in the loops and the [base] step (lines 49-97), on the
    parsed document: [Normal] when they all return, in which case
    [modifyDocument] is what they do, [Throw] when one of them throws. *)
Variable domCalls : Document -> completion unit.
(** [dom.serialize()] *)
Variable serialize : Document -> completion string.
(** [new TextDecoder('utf-8').decode(buffer)] *)
Variable decode : list Byte.byte -> string.

(** [modifyHtml(html, targetUrl)] (lines 29-100). *)
Definition modifyHtml (html targetUrl : string) : completion string :=
  match JSDOM html targetUrl with
  | Throw e => Throw e
  | Normal document =>
      match newURL targetUrl None with
      | Throw e => Throw e
      | Normal url =>
          match domCalls document with
          | Throw e => Throw e
          | Normal _ => serialize (modifyDocument newURL targetUrl url document)
          end
      end
  end.

(** The HTML branch with its fallback (lines 144-157). *)
Definition htmlBranch (targetUrl contentType : string) (buf : list Byte.byte)
    (res : Res) : Res :=
  match modifyHtml (decode buf) targetUrl with
  | Normal modifiedHtml =>
      res_send (Text modifiedHtml) (res_set "Content-Type" "text/html; charset=utf-8" res)
  | Throw parseError =>
      res_send (Bytes buf) (res_set "Content-Type" contentType res)
  end.

(** The response classification of lines 140-171. *)
Definition classify (targetUrl : string) (response : UpstreamResponse) (res : Res)
  : Res :=
  let contentType := orDefault (headersGet "content-type" (headers response)) EmptyString in
  match buffer response with
  | Throw error => errorResponder error res
  | Normal buf =>
      if includes contentType "text/html"
      then htmlBranch targetUrl contentType buf res
      else passThrough response buf res
  end.

(** What the handler does with the fetched response (lines 133-171). *)
Definition relay (targetUrl : string) (response : UpstreamResponse) (res : Res) : Res :=
  match redirectLocation response with
  | Some location =>
      match newURL location (Some targetUrl) with
      | Throw error => errorResponder error res
      | Normal redirect =>
          let redirectUrl := href redirect in
          res_redirect ("/proxy/" +:+ redirectUrl) res
      end
  | None => classify targetUrl response res
  end.

(** The handler of [app.all('/proxy/*')] (lines 103-227). *)
Definition proxyRoute (req : Request) (res : Res) : Proc Res :=
  let targetUrl := params0 req in
  if isEmpty targetUrl then Ret (res_redirect "/" res)
  else
    let targetUrl := withProtocol targetUrl in
    match newURL targetUrl None with
    | Throw error => Ret (errorResponder error res)
    | Normal url =>
        Fetch targetUrl (fetchInit req url)
          (fun fetched =>
             match fetched with
             | Throw error => Ret (errorResponder error res)
             | Normal response => Ret (relay targetUrl response res)
             end)
    end.

(** A request to [/proxy/*] as the application serves it: the cache
    middleware runs first, then the handler. *)
Definition app (req : Request) : Proc Res :=
  proxyRoute req (cacheConfiguration freshResponse).

End Pipeline.

(* ===================================================================== *)
(** ** Vocabulary of the statements *)

(** The element is reported by one of the [querySelectorAll] calls of the
    link loop. *)
Definition selectedBy (selectors : list Selector) (el : Element) : bool :=
  existsb (fun s => matchesSelector s el) selectors.

(** The placeholder of line 87. *)
Definition placeholder : string := "// Frame busting removed".

(** The value a header name ends up with when the upstream headers are
    copied in order: that of the last entry under that (lower-case) name. *)
Fixpoint lastHeader (k : string) (hs : list (string * string)) : option string :=
  match hs with
  | [] => None
  | (key, v) :: rest =>
      match lastHeader k rest with
      | Some v' => Some v'
      | None => if String.eqb (toLowerCase key) k then Some v else None
      end
  end.

(** What the link loop does to one element of the document. *)
Definition linked (newURL : string -> option string -> completion URL)
    (targetUrl : string) (url : URL) (el : Element) : Element :=
  if selectedBy linkSelectors el then rewriteLink newURL targetUrl url el else el.

(** What the script loop does to one element of the document. *)
Definition scripted (el : Element) : Element :=
  if matchesSelector scriptSelector el then neutralizeScript el else el.

(* ===================================================================== *)
(** ** A small platform for running the pipeline on examples

    [sampleURL] covers absolute [http(s)] inputs and path-absolute references
    against an [http(s)] base; everything else is rejected. *)

Fixpoint untilSlash (s : string) : string :=
  match s with
  | EmptyString => EmptyString
  | String c s' =>
      if Ascii.eqb c "/"%char then EmptyString else String c (untilSlash s')
  end.

Definition dropChars (n : nat) (s : string) : string :=
  String.substring n (String.length s - n) s.

Definition invalidURL : Error := {| message := "Invalid URL" |}.

Definition sampleAbsolute (input : string) : completion URL :=
  let scheme :=
    if startsWith input "https://" then "https://"
    else if startsWith input "http://" then "http://" else EmptyString in
  if isEmpty scheme then Throw invalidURL
  else
    let rest := dropChars (String.length scheme) input in
    let host := untilSlash rest in
    let path := dropChars (String.length host) rest in
    if isEmpty host then Throw invalidURL
    else Normal {| href := scheme +:+ host +:+ (if isEmpty path then "/" else path);
                   origin := scheme +:+ host |}.

Definition sampleURL (input : string) (base : option string) : completion URL :=
  match sampleAbsolute input, base with
  | Normal u, _ => Normal u
  | Throw e, None => Throw e
  | Throw e, Some b =>
      match sampleAbsolute b with
      | Throw e' => Throw e'
      | Normal bu =>
          if startsWith input "/" then sampleAbsolute (origin bu +:+ input)
          else Throw e
      end
  end.

Definition element (name : string) (attrs : list (string * string)) (text : string)
    (kids : list nat) : Element :=
  {| namespaceURI := HTML; localName := name; attributes := attrs;
     textContent := text; children := kids |}.

(** html > (head > link, script) , (body > a, a, a, script, object) *)
Definition sampleDocument : Document :=
  {| nodes :=
       [ element "html" [] EmptyString [1; 4];
         element "head" [] EmptyString [2; 3];
         element "link" [("rel", "stylesheet"); ("href", "/style.css")] EmptyString [];
         element "script" [] "if (top != self) top.location = self.location;" [];
         element "body" [] EmptyString [5; 6; 7; 8; 9];
         element "a" [("href", "/wiki/Dog")] "Dog" [];
         element "a" [("href", "https://b.com/x")] "x" [];
         element "a" [("href", "#section")] "s" [];
         element "script" [("src", "/app.js")] EmptyString [];
         element "object" [("data", "/movie.swf")] EmptyString [] ];
     head := 1 |}.

(** [<div>] written [n] times. *)
Fixpoint unclosedDivs (n : nat) : string :=
  match n with
  | O => EmptyString
  | S n' => String "<" (String "d" (String "i" (String "v" (String ">"
              (unclosedDivs n')))))
  end.

(** [Some n] when [html] is [<div>] written [n] times and nothing else. *)
Fixpoint openDivs (html : string) : option nat :=
  match html with
  | EmptyString => Some O
  | String "<" (String "d" (String "i" (String "v" (String ">" rest)))) =>
      option_map S (openDivs rest)
  | _ => None
  end.

(** html > head, (body > div > div > ... > div), [n] divs deep. *)
Definition nestedDocument (n : nat) : Document :=
  {| nodes :=
       element "html" [] EmptyString [1; 2] ::
       element "head" [] EmptyString [] ::
       element "body" [] EmptyString [3] ::
       map (fun i => element "div" [] EmptyString
                       (if Nat.ltb (S i) n then [i + 4] else []))
           (seq 0 n);
     head := 1 |}.

(** The source of [sampleDocument]. *)
Definition sampleHtml : string :=
  "<html><head><link rel=" +:+ dq +:+ "stylesheet" +:+ dq +:+ " href=" +:+ dq +:+
  "/style.css" +:+ dq +:+
  "><script>if (top != self) top.location = self.location;</script></head><body>" +:+
  "<a href=" +:+ dq +:+ "/wiki/Dog" +:+ dq +:+ ">Dog</a>" +:+
  "<a href=" +:+ dq +:+ "https://b.com/x" +:+ dq +:+ ">x</a>" +:+
  "<a href=" +:+ dq +:+ "#section" +:+ dq +:+ ">s</a>" +:+
  "<script src=" +:+ dq +:+ "/app.js" +:+ dq +:+ "></script>" +:+
  "<object data=" +:+ dq +:+ "/movie.swf" +:+ dq +:+ "></object></body></html>".

(** A parser that never throws: [n] unclosed [<div>] give [n] nested divs,
    any other input stands for [sampleHtml], the page of [sampleDocument]. *)
Definition sampleJSDOM (html url : string) : completion Document :=
  match openDivs html with
  | Some (S n) => Normal (nestedDocument (S n))
  | _ => Normal sampleDocument
  end.

Definition sampleDomCalls (doc : Document) : completion unit := Normal tt.

Definition rangeError : Error :=
  {| message := "Maximum call stack size exceeded" |}.

(** The size beyond which the sample serializer gives up. *)
Definition sampleStack : nat := 5000.

(** A nesting depth well beyond it: 20000. *)
Definition deepNesting : nat := 4 * sampleStack.

Fixpoint serializeAttrs (attrs : list (string * string)) : string :=
  match attrs with
  | [] => EmptyString
  | (n, v) :: rest => " " +:+ n +:+ "=" +:+ dq +:+ v +:+ dq +:+ serializeAttrs rest
  end.

(** A flat rendering of the arena, enough to tell documents apart. *)
Definition render (doc : Document) : string :=
  fold_right
    (fun el acc =>
       "<" +:+ localName el +:+ serializeAttrs (attributes el) +:+ ">" +:+
       textContent el +:+ acc)
    EmptyString (nodes doc).

(** A serializer that, like the recursive one of jsdom on the deeply nested
    pages used below, runs out of stack on a document that is too large for
    it, and renders any other. *)
Definition sampleSerialize (doc : Document) : completion string :=
  if Nat.ltb sampleStack (length (nodes doc)) then Throw rangeError
  else Normal (render doc).

Definition sampleDecode (b : list Byte.byte) : string :=
  String.string_of_list_byte b.

Definition wikipedia : string := "https://en.wikipedia.org/".

Definition wikipediaURL : URL :=
  {| href := "https://en.wikipedia.org/"; origin := "https://en.wikipedia.org" |}.

Definition sampleBody : list Byte.byte := String.list_byte_of_string "payload".

(** An upstream that answers every request with [response]. *)
Definition answering (response : UpstreamResponse)
  : string -> FetchInit -> completion UpstreamResponse :=
  fun _ _ => Normal response.

(** An upstream whose name does not resolve. *)
Definition unreachableError : Error :=
  {| message := "request to https://nosuch.invalid/ failed, reason: getaddrinfo ENOTFOUND nosuch.invalid" |}.

Definition unreachable : string -> FetchInit -> completion UpstreamResponse :=
  fun _ _ => Throw unreachableError.

Definition octetResponse : UpstreamResponse :=
  {| status := 206%Z;
     headers := [("content-type", "application/octet-stream");
                 ("content-length", "7"); ("etag", "abc");
                 ("server", "nginx"); ("set-cookie", "id=1")];
     buffer := Normal sampleBody |}.

Definition redirectResponse : UpstreamResponse :=
  {| status := 302%Z;
     headers := [("location", "/new"); ("content-type", "text/html")];
     buffer := Normal sampleBody |}.

(** A 300 answer whose [Location] header is there but empty. *)
Definition emptyLocationResponse : UpstreamResponse :=
  {| status := 300%Z;
     headers := [("location", EmptyString);
                 ("content-type", "application/octet-stream")];
     buffer := Normal sampleBody |}.

Definition samplePage : list Byte.byte := String.list_byte_of_string sampleHtml.

Definition notFoundPage : UpstreamResponse :=
  {| status := 404%Z;
     headers := [("content-type", "text/html; charset=iso-8859-1");
                 ("content-length", "291"); ("etag", "abc")];
     buffer := Normal samplePage |}.

(** A page of [n] unclosed [<div>]. *)
Definition deepBody (n : nat) : list Byte.byte :=
  String.list_byte_of_string (unclosedDivs n).

(** A 404 page nested [n] deep, in a charset of its own. *)
Definition deepPage (n : nat) : UpstreamResponse :=
  {| status := 404%Z;
     headers := [("content-type", "text/html; charset=iso-8859-1")];
     buffer := Normal (deepBody n) |}.

Definition jsonResponse : UpstreamResponse :=
  {| status := 200%Z;
     headers := [("content-type", "application/json"); ("etag", "abc")];
     buffer := Normal sampleBody |}.

(** html > head, (body > svg > script > base): a script in the SVG
    namespace keeps elements as children. *)
Definition svgScriptDocument : Document :=
  {| nodes :=
       [ element "html" [] EmptyString [1; 2];
         element "head" [] EmptyString [];
         element "body" [] EmptyString [3];
         {| namespaceURI := SVG; localName := "svg"; attributes := [];
            textContent := "top.location"; children := [4] |};
         {| namespaceURI := SVG; localName := "script"; attributes := [];
            textContent := "top.location"; children := [5] |};
         {| namespaceURI := SVG; localName := "base"; attributes := [("href", "x")];
            textContent := EmptyString; children := [] |} ];
     head := 1 |}.

(** The document once both loops have run, before the [base] test of
    line 92. *)
Definition afterLoops (newURL : string -> option string -> completion URL)
    (targetUrl : string) (url : URL) (doc : Document) : Document :=
  let d := rewriteLinks newURL targetUrl url linkSelectors doc in
  forEach (querySelectorAll scriptSelector d) neutralizeScript d.

(** html > (head > base), (body > a, a, div) *)
Definition basedDocument : Document :=
  {| nodes :=
       [ element "html" [] EmptyString [1; 3];
         element "head" [] EmptyString [2];
         element "base" [("href", "/sub/")] EmptyString [];
         element "body" [] EmptyString [4; 5; 6];
         element "a" [("href", "https://")] "broken" [];
         element "a" [("class", "nav"); ("href", "/home"); ("id", "h")] "home" [];
         element "div" [("class", "box")] "text" [] ];
     head := 1 |}.

(** A 201 answer that names the created resource in [Location]. *)
Definition createdResponse : UpstreamResponse :=
  {| status := 201%Z;
     headers := [("location", "/items/7");
                 ("content-type", "application/json");
                 ("cache-control", "max-age=60")];
     buffer := Normal sampleBody |}.

Definition abortedError : Error := {| message := "aborted" |}.

(** An answer whose body cannot be read to the end. *)
Definition brokenBodyResponse : UpstreamResponse :=
  {| status := 200%Z;
     headers := [("content-type", "text/html")];
     buffer := Throw abortedError |}.

Definition sampleRequest (target : string) : Request :=
  {| method := "GET"; params0 := target; reqHeaders := [("accept", "text/html")] |}.

(* ===================================================================== *)
(** ** Strings *)

Lemma prefix_append (p s : string) : String.prefix p (p +:+ s) = true.
Proof.
  induction p as [|c p IH]; simpl.
  - by destruct s.
  - destruct (ascii_dec c c) as [_|Hne]; [exact IH | by destruct Hne].
Qed.

Lemma includes_unfold (s sub : string) :
  includes s sub =
  String.prefix sub s ||
  match s with EmptyString => false | String _ s' => includes s' sub end.
Proof. by destruct s. Qed.

Lemma includes_append_r (m b : string) : includes (m +:+ b) m = true.
Proof. by rewrite includes_unfold, prefix_append. Qed.

Lemma includes_tail (c : ascii) (s sub : string) :
  includes s sub = true -> includes (String c s) sub = true.
Proof. intros H. cbn [includes]. rewrite H. apply orb_true_r. Qed.

Lemma includes_skip (a s sub : string) :
  includes s sub = true -> includes (a +:+ s) sub = true.
Proof.
  intros H. induction a as [|c a IH]; [exact H|].
  exact (includes_tail c _ sub IH).
Qed.

Lemma includes_append (a m b : string) : includes (a +:+ m +:+ b) m = true.
Proof. apply includes_skip, includes_append_r. Qed.

Lemma startsWith_append (p s : string) : startsWith (p +:+ s) p = true.
Proof. apply prefix_append. Qed.

Lemma isEmpty_true (s : string) : isEmpty s = true <-> s = EmptyString.
Proof. destruct s; simpl; split; congruence. Qed.

Lemma isEmpty_false (s : string) : isEmpty s = false <-> s <> EmptyString.
Proof. destruct s; simpl; split; congruence. Qed.

(* ===================================================================== *)
(** ** Attributes *)

Lemma lookupAttr_storeAttr_eq (name value : string) (attrs : list (string * string)) :
  lookupAttr name (storeAttr name value attrs) = Some value.
Proof.
  induction attrs as [|[n v] rest IH]; simpl.
  - by rewrite String.eqb_refl.
  - destruct (String.eqb n name) eqn:E; simpl; rewrite E; [reflexivity | exact IH].
Qed.

Lemma lookupAttr_storeAttr_ne (name other value : string) (attrs : list (string * string)) :
  name <> other ->
  lookupAttr other (storeAttr name value attrs) = lookupAttr other attrs.
Proof.
  intros Hne. induction attrs as [|[n v] rest IH]; simpl.
  - destruct (String.eqb name other) eqn:E; [|reflexivity].
    apply String.eqb_eq in E. contradiction.
  - destruct (String.eqb n name) eqn:E; simpl.
    + apply String.eqb_eq in E. subst n.
      destruct (String.eqb name other) eqn:E'; [|reflexivity].
      apply String.eqb_eq in E'. contradiction.
    + destruct (String.eqb n other); [reflexivity | exact IH].
Qed.


Lemma getAttribute_setAttribute_ne (name other value : string) (el : Element) :
  name <> other ->
  getAttribute other (setAttribute name value el) = getAttribute other el.
Proof. apply lookupAttr_storeAttr_ne. Qed.

(* ===================================================================== *)
(** ** Loops over static element lists *)

Lemma forEach_cons (i : nat) (ids : list nat) (f : Element -> Element) (doc : Document) :
  forEach (i :: ids) f doc = forEach ids f (mutate f doc i).
Proof. reflexivity. Qed.

Lemma forEach_lookup_notin (ids : list nat) (f : Element -> Element) (doc : Document)
    (i : nat) :
  ~ In i ids -> nodes (forEach ids f doc) !! i = nodes doc !! i.
Proof.
  revert doc. induction ids as [|a ids IH]; intros doc Hnot; [reflexivity|].
  rewrite forEach_cons, IH by (intros H; apply Hnot; by right).
  simpl. apply list_lookup_alter_ne. intros ->. apply Hnot. by left.
Qed.

Lemma forEach_lookup_in (ids : list nat) (f : Element -> Element) (doc : Document)
    (i : nat) :
  NoDup ids -> In i ids -> nodes (forEach ids f doc) !! i = f <$> nodes doc !! i.
Proof.
  revert doc. induction ids as [|a ids IH]; intros doc Hnd Hin; [destruct Hin|].
  apply NoDup_cons in Hnd as [Ha Hnd]. rewrite forEach_cons.
  destruct (decide (a = i)) as [->|Hne].
  - rewrite forEach_lookup_notin by (by rewrite <- list_elem_of_In).
    simpl. apply list_lookup_alter_eq.
  - destruct Hin as [?|Hin]; [contradiction|].
    rewrite IH by assumption. simpl. by rewrite list_lookup_alter_ne.
Qed.

Lemma forEach_head (ids : list nat) (f : Element -> Element) (doc : Document) :
  head (forEach ids f doc) = head doc.
Proof. revert doc. induction ids as [|a ids IH]; intros doc; [reflexivity|]. by rewrite forEach_cons, IH. Qed.

Lemma querySelectorAll_NoDup (s : Selector) (doc : Document) :
  NoDup (querySelectorAll s doc).
Proof. apply NoDup_ListNoDup, List.NoDup_filter, List.seq_NoDup. Qed.

Lemma querySelectorAll_In (s : Selector) (doc : Document) (i : nat) :
  In i (querySelectorAll s doc) <-> matchesAt s doc i = true.
Proof.
  unfold querySelectorAll. rewrite List.filter_In, List.in_seq. split; [tauto|].
  intros H. split; [|exact H]. unfold matchesAt in H.
  destruct (nodes doc !! i) eqn:E; [|discriminate].
  apply lookup_lt_Some in E. lia.
Qed.

(** One [querySelectorAll(sel).forEach(f)]: exactly the matching elements are
    handed to [f], once each. *)
Lemma forEach_query_lookup (s : Selector) (f : Element -> Element) (doc : Document)
    (i : nat) :
  nodes (forEach (querySelectorAll s doc) f doc) !! i =
  (fun el => if matchesSelector s el then f el else el) <$> nodes doc !! i.
Proof.
  destruct (matchesAt s doc i) eqn:E.
  - rewrite forEach_lookup_in;
      [| apply querySelectorAll_NoDup | by apply querySelectorAll_In].
    unfold matchesAt in E. destruct (nodes doc !! i); [simpl; by rewrite E | discriminate].
  - rewrite forEach_lookup_notin
      by (rewrite querySelectorAll_In; congruence).
    unfold matchesAt in E. destruct (nodes doc !! i); [simpl; by rewrite E | reflexivity].
Qed.

(* ===================================================================== *)
(** ** The HTML rewriter *)

Lemma orDefault_textContent (s : string) : orDefault (Some s) EmptyString = s.
Proof. by destruct s. Qed.

Lemma neutralizeScript_attributes (el : Element) :
  attributes (neutralizeScript el) = attributes el.
Proof. unfold neutralizeScript. by destruct (frameBusting _). Qed.

Lemma neutralizeScript_localName (el : Element) :
  localName (neutralizeScript el) = localName el.
Proof. unfold neutralizeScript. by destruct (frameBusting _). Qed.

Lemma neutralizeScript_textContent (el : Element) :
  textContent (neutralizeScript el) =
  if frameBusting (textContent el) then placeholder else textContent el.
Proof.
  unfold neutralizeScript. rewrite orDefault_textContent.
  by destruct (frameBusting _).
Qed.

Lemma selectedBy_other_tags (selectors : list Selector) (el : Element) :
  ~ In (localName el) (map selTag selectors) -> selectedBy selectors el = false.
Proof.
  induction selectors as [|s rest IH]; intros Hnot; [reflexivity|].
  simpl. rewrite IH by (intros H; apply Hnot; by right).
  unfold matchesSelector.
  destruct (String.eqb (localName el) (selTag s)) eqn:E; [|reflexivity].
  apply String.eqb_eq in E. destruct Hnot. left. by symmetry.
Qed.

Lemma matchesSelector_tag (s : Selector) (el : Element) :
  matchesSelector s el = true -> localName el = selTag s.
Proof.
  unfold matchesSelector. intros H. apply andb_true_iff in H as [H _].
  by apply String.eqb_eq.
Qed.

Section Rewriter.

Variable newURL : string -> option string -> completion URL.
Variable targetUrl : string.
Variable url : URL.

Local Abbreviation callback := (rewriteLink newURL targetUrl url).
Local Abbreviation linkLoop := (rewriteLinks newURL targetUrl url).
Local Abbreviation rewritten := (modifyDocument newURL targetUrl url).

Lemma rewriteLink_localName (el : Element) :
  localName (callback el) = localName el.
Proof.
  unfold rewriteLink.
  repeat (match goal with |- context [match ?x with _ => _ end] => destruct x end);
    reflexivity.
Qed.

Lemma rewriteLink_textContent (el : Element) :
  textContent (callback el) = textContent el.
Proof.
  unfold rewriteLink.
  repeat (match goal with |- context [match ?x with _ => _ end] => destruct x end);
    reflexivity.
Qed.

(** The link loop hands each selected element to the callback exactly
    once, and leaves every other element alone. *)
Lemma rewriteLinks_lookup (selectors : list Selector) (doc : Document) (i : nat) :
  List.NoDup (map selTag selectors) ->
  nodes (linkLoop selectors doc) !! i =
  (fun el => if selectedBy selectors el then callback el else el) <$> nodes doc !! i.
Proof.
  revert doc. induction selectors as [|s rest IH]; intros doc Hnd.
  - simpl. by destruct (nodes doc !! i).
  - inversion Hnd as [|? ? Hs Hrest]; subst.
    change (linkLoop (s :: rest) doc)
      with (linkLoop rest (forEach (querySelectorAll s doc) callback doc)).
    rewrite IH by assumption. rewrite forEach_query_lookup.
    destruct (nodes doc !! i) as [el|]; [|reflexivity]. simpl. f_equal.
    destruct (matchesSelector s el) eqn:E; simpl.
    + rewrite selectedBy_other_tags; [reflexivity|].
      rewrite rewriteLink_localName, (matchesSelector_tag _ _ E). exact Hs.
    + reflexivity.
Qed.

Lemma linkSelectors_tags : List.NoDup (map selTag linkSelectors).
Proof. apply NoDup_ListNoDup, (bool_decide_unpack _). by vm_compute. Qed.

Lemma insertFirstChild_lookup (parent : nat) (new : Element) (doc : Document)
    (i : nat) (el : Element) :
  nodes doc !! i = Some el ->
  exists el', nodes (insertFirstChild parent new doc) !! i = Some el' /\
    attributes el' = attributes el /\ textContent el' = textContent el /\
    localName el' = localName el.
Proof.
  intros H. unfold insertFirstChild. simpl.
  rewrite lookup_app_l by (rewrite length_alter; by eapply lookup_lt_Some).
  rewrite list_lookup_alter. case_decide; subst; rewrite H; simpl; eauto.
Qed.

(** Element by element, [modifyHtml] is the link callback followed by the
    script callback; the inserted [base] element changes no attribute and
    no text of the elements that were parsed. *)
Lemma modifyDocument_lookup (doc : Document) (i : nat) (el : Element) :
  nodes doc !! i = Some el ->
  exists el', nodes (rewritten doc) !! i = Some el' /\
    attributes el' = attributes (linked newURL targetUrl url el) /\
    textContent el' = textContent (scripted (linked newURL targetUrl url el)) /\
    localName el' = localName el.
Proof.
  intros H. unfold modifyDocument.
  set (d1 := linkLoop linkSelectors doc).
  set (d2 := forEach (querySelectorAll scriptSelector d1) neutralizeScript d1).
  assert (H2 : nodes d2 !! i = Some (scripted (linked newURL targetUrl url el))).
  { unfold d2. rewrite forEach_query_lookup. unfold d1.
    rewrite rewriteLinks_lookup by apply linkSelectors_tags. by rewrite H. }
  assert (Hattr : attributes (scripted (linked newURL targetUrl url el)) = attributes (linked newURL targetUrl url el)).
  { unfold scripted. destruct (matchesSelector _ _); [apply neutralizeScript_attributes | reflexivity]. }
  assert (Hname : localName (scripted (linked newURL targetUrl url el)) = localName el).
  { unfold scripted. destruct (matchesSelector _ _);
      [rewrite neutralizeScript_localName|]; unfold linked;
      destruct (selectedBy _ _); try apply rewriteLink_localName; reflexivity. }
  destruct (querySelectorAttached baseSelector d2 (detachedByScripts d1)).
  - exists (scripted (linked newURL targetUrl url el)). auto.
  - destruct (insertFirstChild_lookup (head d2) (baseElement url) d2 i _ H2)
      as (el' & Hl & Ha & Ht & Hn).
    exists el'. repeat split; congruence.
Qed.

End Rewriter.




Lemma notProxyable_true (v : string) :
  isEmpty v = true \/ startsWith v "#" = true \/ startsWith v "mailto:" = true \/
  startsWith v "tel:" = true \/ startsWith v "javascript:" = true ->
  notProxyable v = true.
Proof.
  unfold notProxyable. intros [H | [H | [H | [H | H]]]]; rewrite H;
    rewrite ?orb_true_r; reflexivity.
Qed.

(** An element the link callback returns early on keeps all its attributes
    through the whole of [modifyHtml]. *)
Lemma untouched_attributes (newURL : string -> option string -> completion URL)
    (targetUrl : string) (url : URL) (doc : Document) (i : nat) (el : Element) :
  nodes doc !! i = Some el ->
  rewriteLink newURL targetUrl url el = el ->
  exists el', nodes (modifyDocument newURL targetUrl url doc) !! i = Some el' /\
    attributes el' = attributes el.
Proof.
  intros H Hskip.
  destruct (modifyDocument_lookup newURL targetUrl url doc i el H)
    as (el' & Hl & Ha & _ & _).
  exists el'. split; [exact Hl|]. rewrite Ha. unfold linked.
  destruct (selectedBy _ _); by rewrite ?Hskip.
Qed.



(** The same loop on the cross-origin anchor of the sample document. *)
Example cross_origin_anchor :
  attributes <$>
    nodes (modifyDocument sampleURL wikipedia wikipediaURL sampleDocument) !! 6%nat
  = Some [("href", "/proxy/https://b.com/x"); ("target", "_blank");
          ("rel", "noopener noreferrer")].
Proof. vm_compute. reflexivity. Qed.

(** C5. An element whose attribute value is empty, or begins with [#],
    [mailto:], [tel:] or [javascript:], comes out of [modifyHtml] with the
    attribute list it had: the value is not rewritten and neither [target]
    nor [rel] is set. *)
Theorem skip_unproxyable
    (newURL : string -> option string -> completion URL)
    (targetUrl : string) (url : URL) (doc : Document) (i : nat) (el : Element)
    (originalValue : string) :
  nodes doc !! i = Some el ->
  getAttribute (linkAttr el) el = Some originalValue ->
  isEmpty originalValue = true \/
  startsWith originalValue "#" = true \/
  startsWith originalValue "mailto:" = true \/
  startsWith originalValue "tel:" = true \/
  startsWith originalValue "javascript:" = true ->
  exists el', nodes (modifyDocument newURL targetUrl url doc) !! i = Some el' /\
    attributes el' = attributes el /\
    getAttribute (linkAttr el) el' = Some originalValue /\
    getAttribute "target" el' = getAttribute "target" el /\
    getAttribute "rel" el' = getAttribute "rel" el.
Proof.
  intros H Hattr Hguard.
  destruct (untouched_attributes newURL targetUrl url doc i el H) as (el' & Hl & Ha).
  { unfold rewriteLink. by rewrite Hattr, (notProxyable_true _ Hguard). }
  exists el'. unfold getAttribute in *. rewrite Ha. auto.
Qed.

Lemma skip_unproxyable_witness :
  exists el',
    nodes (modifyDocument sampleURL wikipedia wikipediaURL sampleDocument) !! 7%nat
      = Some el' /\
    attributes el' = [("href", "#section")] /\
    getAttribute "href" el' = Some "#section" /\
    getAttribute "target" el' = None /\
    getAttribute "rel" el' = None.
Proof.
  refine (skip_unproxyable sampleURL wikipedia wikipediaURL sampleDocument 7
            (element "a" [("href", "#section")] "s" []) "#section" _ _ _).
  - reflexivity.
  - reflexivity.
  - right. left. reflexivity.
Defined.

(** C4. A [script] element whose text contains [top.location],
    [frame busting] or [if (top != self)] has its text replaced with the
    placeholder comment; a [script] element whose text contains none of the
    three keeps its text. *)
Theorem script_neutralized
    (newURL : string -> option string -> completion URL)
    (targetUrl : string) (url : URL) (doc : Document) (i : nat) (script : Element) :
  nodes doc !! i = Some script ->
  localName script = "script" ->
  exists script', nodes (modifyDocument newURL targetUrl url doc) !! i = Some script' /\
    (includes (textContent script) "top.location" = true \/
     includes (textContent script) "frame busting" = true \/
     includes (textContent script) "if (top != self)" = true ->
     textContent script' = "// Frame busting removed") /\
    (includes (textContent script) "top.location" = false ->
     includes (textContent script) "frame busting" = false ->
     includes (textContent script) "if (top != self)" = false ->
     textContent script' = textContent script).
Proof.
  intros H Hname.
  destruct (modifyDocument_lookup newURL targetUrl url doc i script H)
    as (script' & Hl & _ & Ht & _).
  exists script'. split; [exact Hl|].
  assert (Hlinked : localName (linked newURL targetUrl url script) = "script"
                    /\ textContent (linked newURL targetUrl url script)
                       = textContent script).
  { unfold linked. destruct (selectedBy _ _);
      by rewrite ?rewriteLink_localName, ?rewriteLink_textContent. }
  destruct Hlinked as [Hn Htext].
  assert (Hs : scripted (linked newURL targetUrl url script)
               = neutralizeScript (linked newURL targetUrl url script)).
  { unfold scripted, matchesSelector. by rewrite Hn. }
  rewrite Ht, Hs, neutralizeScript_textContent, Htext. unfold frameBusting.
  split.
  - intros [Hi | [Hi | Hi]]; rewrite Hi; rewrite ?orb_true_r; reflexivity.
  - by intros -> -> ->.
Qed.

Lemma script_neutralized_witness :
  exists script',
    nodes (modifyDocument sampleURL wikipedia wikipediaURL sampleDocument) !! 3%nat
      = Some script' /\
    (includes "if (top != self) top.location = self.location;" "top.location" = true \/
     includes "if (top != self) top.location = self.location;" "frame busting" = true \/
     includes "if (top != self) top.location = self.location;" "if (top != self)" = true ->
     textContent script' = "// Frame busting removed") /\
    (includes "if (top != self) top.location = self.location;" "top.location" = false ->
     includes "if (top != self) top.location = self.location;" "frame busting" = false ->
     includes "if (top != self) top.location = self.location;" "if (top != self)" = false ->
     textContent script' = "if (top != self) top.location = self.location;").
Proof.
  refine (script_neutralized sampleURL wikipedia wikipediaURL sampleDocument 3
            (element "script" [] "if (top != self) top.location = self.location;" [])
            _ _); reflexivity.
Defined.

(** A script without any of the three patterns, run through the loop. *)
Example harmless_script_kept :
  textContent <$>
    nodes (modifyDocument sampleURL wikipedia wikipediaURL
             {| nodes := [element "script" [] "console.log(1)" []]; head := 0 |}) !! 0%nat
  = Some "console.log(1)".
Proof. vm_compute. reflexivity. Qed.

(* ===================================================================== *)
(** ** The attribute the link loop picks *)

(** For anchors the loop picks [href], for forms [action], and for [script],
    [img], [iframe], [embed], [source], [video] and [audio] it picks [src]. *)
Lemma linkAttr_html (name : string) (attrs : list (string * string)) (text : string)
    (kids : list nat) :
  (name = "a" -> linkAttr (element name attrs text kids) = "href") /\
  (name = "form" -> linkAttr (element name attrs text kids) = "action") /\
  (In name ["script"; "img"; "iframe"; "embed"; "source"; "video"; "audio"] ->
   linkAttr (element name attrs text kids) = "src").
Proof.
  split; [by intros ->|]. split; [by intros ->|].
  simpl. intros H. repeat (destruct H as [<- | H]; [reflexivity|]). destruct H.
Qed.

(** For [link] and [object] elements the loop reads [src], whatever the
    namespace: the [href] of a [link] and the [data] of an [object], which
    are the attributes their selectors ask for, are never read. *)
Lemma linkAttr_link_object (el : Element) :
  localName el = "link" \/ localName el = "object" -> linkAttr el = "src".
Proof.
  unfold linkAttr, tagName. by intros [-> | ->]; destruct (namespaceURI el).
Qed.

(** In any document, a [link] or [object] element without a [src] attribute
    leaves [modifyHtml] with the attributes it came with. *)
Lemma link_object_without_src_untouched
    (newURL : string -> option string -> completion URL)
    (targetUrl : string) (url : URL) (doc : Document) (i : nat) (el : Element) :
  nodes doc !! i = Some el ->
  localName el = "link" \/ localName el = "object" ->
  getAttribute "src" el = None ->
  exists el', nodes (modifyDocument newURL targetUrl url doc) !! i = Some el' /\
    attributes el' = attributes el.
Proof.
  intros H Hname Hsrc. apply untouched_attributes; [exact H|].
  unfold rewriteLink. by rewrite (linkAttr_link_object el Hname), Hsrc.
Qed.

(** C2 (the code against the claim). A [link] element with an [href] and an
    [object] element with a [data] attribute are reported to the loop, which
    looks for their [src], finds none and returns: for every URL
    implementation, the [href="/style.css"] and [data="/movie.swf"] of the
    sample document come out as they went in. *)
Theorem link_href_and_object_data_kept
    (newURL : string -> option string -> completion URL)
    (targetUrl : string) (url : URL) :
  selectedBy linkSelectors (element "link" [("rel", "stylesheet"); ("href", "/style.css")]
                              EmptyString []) = true /\
  selectedBy linkSelectors (element "object" [("data", "/movie.swf")] EmptyString [])
    = true /\
  exists link object,
    nodes (modifyDocument newURL targetUrl url sampleDocument) !! 2%nat = Some link /\
    getAttribute "href" link = Some "/style.css" /\
    nodes (modifyDocument newURL targetUrl url sampleDocument) !! 9%nat = Some object /\
    getAttribute "data" object = Some "/movie.swf".
Proof.
  split; [reflexivity|]. split; [reflexivity|].
  destruct (untouched_attributes newURL targetUrl url sampleDocument 2
              (element "link" [("rel", "stylesheet"); ("href", "/style.css")]
                 EmptyString []) eq_refl eq_refl) as (link & Hl & Hla).
  destruct (untouched_attributes newURL targetUrl url sampleDocument 9
              (element "object" [("data", "/movie.swf")] EmptyString [])
              eq_refl eq_refl) as (object & Ho & Hoa).
  exists link, object. unfold getAttribute. rewrite Hla, Hoa. auto.
Qed.

(* ===================================================================== *)
(** ** The route handler *)

Section Handler.

Variable newURL : string -> option string -> completion URL.
Variable JSDOM : string -> string -> completion Document.
Variable domCalls : Document -> completion unit.
Variable serialize : Document -> completion string.
Variable decode : list Byte.byte -> string.
Variable world : string -> FetchInit -> completion UpstreamResponse.

Local Abbreviation handler := (proxyRoute newURL JSDOM domCalls serialize decode).
Local Abbreviation served := (app newURL JSDOM domCalls serialize decode).

Lemma run_missing_target (req : Request) (res : Res) :
  isEmpty (params0 req) = true ->
  handler req res = Ret (res_redirect "/" res).
Proof. unfold proxyRoute. by intros ->. Qed.

Lemma run_invalid_target (req : Request) (res : Res) (error : Error) :
  isEmpty (params0 req) = false ->
  newURL (withProtocol (params0 req)) None = Throw error ->
  run world (handler req res) = (errorResponder error res, []).
Proof. unfold proxyRoute. by intros -> ->. Qed.

Lemma run_fetch_failed (req : Request) (res : Res) (url : URL) (error : Error) :
  isEmpty (params0 req) = false ->
  newURL (withProtocol (params0 req)) None = Normal url ->
  world (withProtocol (params0 req)) (fetchInit req url) = Throw error ->
  run world (handler req res) =
  (errorResponder error res, [(withProtocol (params0 req), fetchInit req url)]).
Proof. unfold proxyRoute. intros -> -> H. simpl. by rewrite H. Qed.

Lemma run_fetched (req : Request) (res : Res) (url : URL)
    (response : UpstreamResponse) :
  isEmpty (params0 req) = false ->
  newURL (withProtocol (params0 req)) None = Normal url ->
  world (withProtocol (params0 req)) (fetchInit req url) = Normal response ->
  run world (handler req res) =
  (relay newURL JSDOM domCalls serialize decode (withProtocol (params0 req)) response res,
   [(withProtocol (params0 req), fetchInit req url)]).
Proof. unfold proxyRoute. intros -> -> H. simpl. by rewrite H. Qed.

End Handler.

Lemma errorPage_message (msg : string) : includes (errorPage msg) msg = true.
Proof. apply includes_append. Qed.

Lemma errorPage_homeLink (msg : string) : includes (errorPage msg) homeLink = true.
Proof. unfold errorPage, errorPageAfter. do 2 apply includes_skip. apply includes_append. Qed.

(** C8. A request whose target segment is empty is answered with a redirect
    to the landing page, and its run contains no [fetch]. *)
Theorem missing_target_redirects
    (newURL : string -> option string -> completion URL)
    (JSDOM : string -> string -> completion Document)
    (domCalls : Document -> completion unit)
    (serialize : Document -> completion string) (decode : list Byte.byte -> string)
    (world : string -> FetchInit -> completion UpstreamResponse) (req : Request) :
  isEmpty (params0 req) = true ->
  sent (fst (run world (app newURL JSDOM domCalls serialize decode req))) = Some (Redirect "/") /\
  snd (run world (app newURL JSDOM domCalls serialize decode req)) = [].
Proof.
  intros H. unfold app. by rewrite run_missing_target.
Qed.

Lemma missing_target_redirects_witness :
  sent (fst (run (fun _ _ => Throw invalidURL)
               (app sampleURL sampleJSDOM sampleDomCalls sampleSerialize sampleDecode
                  (sampleRequest EmptyString)))) = Some (Redirect "/") /\
  snd (run (fun _ _ => Throw invalidURL)
         (app sampleURL sampleJSDOM sampleDomCalls sampleSerialize sampleDecode
            (sampleRequest EmptyString))) = [].
Proof.
  apply (missing_target_redirects sampleURL sampleJSDOM sampleDomCalls sampleSerialize sampleDecode
           (fun _ _ => Throw invalidURL) (sampleRequest EmptyString)).
  reflexivity.
Defined.

(** C7. A non-empty target that starts with neither [http://] nor [https://]
    is parsed and fetched as [https://] followed by the target as given; a
    target that starts with one of the two is parsed and fetched as given. *)
Theorem protocol_defaulting
    (newURL : string -> option string -> completion URL)
    (JSDOM : string -> string -> completion Document)
    (domCalls : Document -> completion unit)
    (serialize : Document -> completion string) (decode : list Byte.byte -> string)
    (req : Request) (res : Res) :
  isEmpty (params0 req) = false ->
  exists targetUrl,
    (startsWith (params0 req) "http://" = false ->
     startsWith (params0 req) "https://" = false ->
     targetUrl = "https://" +:+ params0 req) /\
    (startsWith (params0 req) "http://" = true \/
     startsWith (params0 req) "https://" = true ->
     targetUrl = params0 req) /\
    proxyRoute newURL JSDOM domCalls serialize decode req res =
    match newURL targetUrl None with
    | Throw error => Ret (errorResponder error res)
    | Normal url =>
        Fetch targetUrl (fetchInit req url)
          (fun fetched =>
             match fetched with
             | Throw error => Ret (errorResponder error res)
             | Normal response =>
                 Ret (relay newURL JSDOM domCalls serialize decode targetUrl response res)
             end)
    end.
Proof.
  intros H. exists (withProtocol (params0 req)). unfold withProtocol, proxyRoute.
  rewrite H. split; [by intros -> ->|]. split; [|reflexivity].
  intros [-> | ->]; simpl; rewrite ?andb_false_r; reflexivity.
Qed.

Lemma protocol_defaulting_witness :
  exists targetUrl,
    (startsWith "wikipedia.org" "http://" = false ->
     startsWith "wikipedia.org" "https://" = false ->
     targetUrl = "https://wikipedia.org") /\
    (startsWith "wikipedia.org" "http://" = true \/
     startsWith "wikipedia.org" "https://" = true ->
     targetUrl = "wikipedia.org") /\
    proxyRoute sampleURL sampleJSDOM sampleDomCalls sampleSerialize sampleDecode
      (sampleRequest "wikipedia.org") freshResponse =
    match sampleURL targetUrl None with
    | Throw error => Ret (errorResponder error freshResponse)
    | Normal url =>
        Fetch targetUrl (fetchInit (sampleRequest "wikipedia.org") url)
          (fun fetched =>
             match fetched with
             | Throw error => Ret (errorResponder error freshResponse)
             | Normal response =>
                 Ret (relay sampleURL sampleJSDOM sampleDomCalls sampleSerialize sampleDecode
                        targetUrl response freshResponse)
             end)
    end.
Proof.
  apply (protocol_defaulting sampleURL sampleJSDOM sampleDomCalls sampleSerialize sampleDecode
           (sampleRequest "wikipedia.org") freshResponse).
  reflexivity.
Defined.

Example protocol_examples :
  withProtocol "wikipedia.org" = "https://wikipedia.org" /\
  withProtocol "http://example.com/a" = "http://example.com/a" /\
  withProtocol "https://example.com/a" = "https://example.com/a" /\
  withProtocol (withProtocol "wikipedia.org") = "https://wikipedia.org".
Proof. repeat split. Qed.

(** C9. When parsing the target URL or the fetch fails, the answer has
    status 502 and an HTML body containing the error's message as it is and
    the link back to [/]. *)
Theorem failure_yields_502
    (newURL : string -> option string -> completion URL)
    (JSDOM : string -> string -> completion Document)
    (domCalls : Document -> completion unit)
    (serialize : Document -> completion string) (decode : list Byte.byte -> string)
    (world : string -> FetchInit -> completion UpstreamResponse)
    (req : Request) (error : Error) :
  isEmpty (params0 req) = false ->
  newURL (withProtocol (params0 req)) None = Throw error \/
  (exists url, newURL (withProtocol (params0 req)) None = Normal url /\
     world (withProtocol (params0 req)) (fetchInit req url) = Throw error) ->
  exists body,
    statusCode (fst (run world (app newURL JSDOM domCalls serialize decode req))) = 502%Z /\
    sent (fst (run world (app newURL JSDOM domCalls serialize decode req)))
      = Some (Send (Text body)) /\
    includes body (message error) = true /\
    includes body homeLink = true.
Proof.
  intros Hne Hfail. exists (errorPage (message error)). unfold app.
  assert (Hrun : fst (run world (proxyRoute newURL JSDOM domCalls serialize decode req
                                   (cacheConfiguration freshResponse)))
                 = errorResponder error (cacheConfiguration freshResponse)).
  { destruct Hfail as [Hparse | (url & Hparse & Hfetch)].
    - by rewrite (run_invalid_target _ _ _ _ _ _ _ _ _ Hne Hparse).
    - by rewrite (run_fetch_failed _ _ _ _ _ _ _ _ _ _ Hne Hparse Hfetch). }
  rewrite Hrun. repeat split; [apply errorPage_message | apply errorPage_homeLink].
Qed.

Lemma failure_yields_502_witness :
  exists body,
    statusCode (fst (run unreachable
                       (app sampleURL sampleJSDOM sampleDomCalls sampleSerialize sampleDecode
                          (sampleRequest "nosuch.invalid")))) = 502%Z /\
    sent (fst (run unreachable
                 (app sampleURL sampleJSDOM sampleDomCalls sampleSerialize sampleDecode
                    (sampleRequest "nosuch.invalid"))))
      = Some (Send (Text body)) /\
    includes body (message unreachableError) = true /\
    includes body homeLink = true.
Proof.
  apply (failure_yields_502 sampleURL sampleJSDOM sampleDomCalls sampleSerialize sampleDecode
           unreachable (sampleRequest "nosuch.invalid") unreachableError).
  - reflexivity.
  - right. exists {| href := "https://nosuch.invalid/"; origin := "https://nosuch.invalid" |}.
    split; reflexivity.
Defined.

(** A target that does not parse is answered the same way. *)
Example invalid_target_502 :
  statusCode (fst (run unreachable
                     (app sampleURL sampleJSDOM sampleDomCalls sampleSerialize sampleDecode
                        (sampleRequest "/")))) = 502%Z.
Proof. reflexivity. Qed.

(* ===================================================================== *)
(** ** Redirects *)

Lemma redirectLocation_some (response : UpstreamResponse) (location : string) :
  (300 <= status response < 400)%Z ->
  headersGet "location" (headers response) = Some location ->
  isEmpty location = false ->
  redirectLocation response = Some location.
Proof.
  intros [Hlo Hhi] Hloc Hne. unfold redirectLocation.
  apply Z.leb_le in Hlo. apply Z.ltb_lt in Hhi. rewrite Hlo, Hhi, Hloc. simpl.
  by rewrite Hne.
Qed.

Lemma redirectLocation_none (response : UpstreamResponse) :
  headersGet "location" (headers response) = None \/
  headersGet "location" (headers response) = Some EmptyString ->
  redirectLocation response = None.
Proof.
  unfold redirectLocation. intros [-> | ->]; simpl; by destruct (_ && _).
Qed.

(** C3, as the code has it. For an upstream answer with status in
    [[300,400)]: when [Location] is present and not empty, the upstream body
    is not sent; the answer is a redirect to ['/proxy/'] followed by the
    [Location] value resolved against the target URL, or the 502 error
    document when that value does not resolve.  When [Location] is absent or
    empty, the answer is the one the response classifier gives. *)
Theorem redirect_translated
    (newURL : string -> option string -> completion URL)
    (JSDOM : string -> string -> completion Document)
    (domCalls : Document -> completion unit)
    (serialize : Document -> completion string) (decode : list Byte.byte -> string)
    (world : string -> FetchInit -> completion UpstreamResponse)
    (req : Request) (url : URL) (response : UpstreamResponse) :
  isEmpty (params0 req) = false ->
  newURL (withProtocol (params0 req)) None = Normal url ->
  world (withProtocol (params0 req)) (fetchInit req url) = Normal response ->
  (300 <= status response < 400)%Z ->
  (forall location,
     headersGet "location" (headers response) = Some location ->
     isEmpty location = false ->
     match newURL location (Some (withProtocol (params0 req))) with
     | Normal redirect =>
         statusCode (fst (run world (app newURL JSDOM domCalls serialize decode req))) = 302%Z /\
         sent (fst (run world (app newURL JSDOM domCalls serialize decode req)))
           = Some (Redirect (PROXY_PREFIX +:+ href redirect))
     | Throw error =>
         fst (run world (app newURL JSDOM domCalls serialize decode req))
           = errorResponder error (cacheConfiguration freshResponse)
     end) /\
  (headersGet "location" (headers response) = None \/
   headersGet "location" (headers response) = Some EmptyString ->
   fst (run world (app newURL JSDOM domCalls serialize decode req))
     = classify newURL JSDOM domCalls serialize decode (withProtocol (params0 req)) response
         (cacheConfiguration freshResponse)).
Proof.
  intros Hne Hparse Hfetch Hstatus. unfold app.
  rewrite (run_fetched _ _ _ _ _ _ _ _ _ _ Hne Hparse Hfetch). simpl. unfold relay.
  split.
  - intros location Hloc Hnonempty.
    rewrite (redirectLocation_some _ _ Hstatus Hloc Hnonempty).
    by destruct (newURL location _).
  - intros Habsent. by rewrite (redirectLocation_none _ Habsent).
Qed.

Lemma redirect_translated_witness :
  (forall location,
     headersGet "location" (headers redirectResponse) = Some location ->
     isEmpty location = false ->
     match sampleURL location (Some "https://a.com/old") with
     | Normal redirect =>
         statusCode (fst (run (answering redirectResponse)
                            (app sampleURL sampleJSDOM sampleDomCalls sampleSerialize sampleDecode
                               (sampleRequest "a.com/old")))) = 302%Z /\
         sent (fst (run (answering redirectResponse)
                      (app sampleURL sampleJSDOM sampleDomCalls sampleSerialize sampleDecode
                         (sampleRequest "a.com/old"))))
           = Some (Redirect (PROXY_PREFIX +:+ href redirect))
     | Throw error =>
         fst (run (answering redirectResponse)
                (app sampleURL sampleJSDOM sampleDomCalls sampleSerialize sampleDecode
                   (sampleRequest "a.com/old")))
           = errorResponder error (cacheConfiguration freshResponse)
     end) /\
  (headersGet "location" (headers redirectResponse) = None \/
   headersGet "location" (headers redirectResponse) = Some EmptyString ->
   fst (run (answering redirectResponse)
          (app sampleURL sampleJSDOM sampleDomCalls sampleSerialize sampleDecode
             (sampleRequest "a.com/old")))
     = classify sampleURL sampleJSDOM sampleDomCalls sampleSerialize sampleDecode
         "https://a.com/old" redirectResponse (cacheConfiguration freshResponse)).
Proof.
  apply (redirect_translated sampleURL sampleJSDOM sampleDomCalls sampleSerialize sampleDecode
           (answering redirectResponse) (sampleRequest "a.com/old")
           {| href := "https://a.com/old"; origin := "https://a.com" |}
           redirectResponse).
  - reflexivity.
  - reflexivity.
  - reflexivity.
  - simpl. lia.
Defined.

(** The relative redirect of the sample upstream, run through the handler. *)
Example relative_redirect :
  sent (fst (run (answering redirectResponse)
               (app sampleURL sampleJSDOM sampleDomCalls sampleSerialize sampleDecode
                  (sampleRequest "a.com/old"))))
  = Some (Redirect "/proxy/https://a.com/new").
Proof. reflexivity. Qed.

(** C3 as stated fails: a 300 answer whose [Location] header is present but
    empty is not turned into a redirect; the upstream body goes to the
    client with the upstream status. *)
Lemma empty_location_body_returned :
  (300 <= status emptyLocationResponse < 400)%Z /\
  headersGet "location" (headers emptyLocationResponse) = Some EmptyString /\
  sent (fst (run (answering emptyLocationResponse)
               (app sampleURL sampleJSDOM sampleDomCalls sampleSerialize sampleDecode
                  (sampleRequest "a.com/old"))))
    = Some (Send (Bytes sampleBody)) /\
  statusCode (fst (run (answering emptyLocationResponse)
                     (app sampleURL sampleJSDOM sampleDomCalls sampleSerialize sampleDecode
                        (sampleRequest "a.com/old")))) = 300%Z.
Proof. split; [simpl; lia|]. repeat split. Qed.

(* ===================================================================== *)
(** ** The pass-through relay *)

Lemma arrayIncludes_In (l : list string) (x : string) :
  arrayIncludes l x = true <-> In x l.
Proof.
  unfold arrayIncludes. rewrite existsb_exists. split.
  - intros (y & Hy & E). apply String.eqb_eq in E. by subst.
  - intros H. exists x. by rewrite String.eqb_refl.
Qed.

Lemma arrayIncludes_not_In (l : list string) (x : string) :
  ~ In x l -> arrayIncludes l x = false.
Proof.
  intros H. destruct (arrayIncludes l x) eqn:E; [|reflexivity].
  by apply arrayIncludes_In in E.
Qed.

Lemma copySafeHeaders_statusCode (hs : list (string * string)) (res : Res) :
  statusCode (copySafeHeaders hs res) = statusCode res.
Proof.
  revert res. induction hs as [|kv hs IH]; intros res; [reflexivity|].
  unfold copySafeHeaders in *. cbn [fold_left]. rewrite IH.
  by destruct (arrayIncludes safeHeaders (toLowerCase kv.1)).
Qed.

(** The header filter, name by name. *)
Lemma copySafeHeaders_lookup (hs : list (string * string)) (res : Res) (k : string) :
  resHeaders (copySafeHeaders hs res) !! k =
  if arrayIncludes safeHeaders k
  then match lastHeader k hs with
       | Some v =>
           Some (if String.eqb k "content-type" then expressContentType v else v)
       | None => resHeaders res !! k
       end
  else resHeaders res !! k.
Proof.
  revert res. induction hs as [|[key v] hs IH]; intros res.
  - unfold copySafeHeaders. cbn [fold_left lastHeader].
    by destruct (arrayIncludes safeHeaders k).
  - unfold copySafeHeaders in *. cbn [fold_left fst snd]. rewrite IH.
    cbn [lastHeader].
    destruct (arrayIncludes safeHeaders k) eqn:Ek.
    + destruct (lastHeader k hs); [reflexivity|].
      destruct (String.eqb (toLowerCase key) k) eqn:E.
      * apply String.eqb_eq in E. rewrite E, Ek.
        unfold res_set, res_setHeader, storedValue. cbn [resHeaders].
        rewrite E. apply lookup_insert_eq.
      * apply String.eqb_neq in E.
        destruct (arrayIncludes safeHeaders (toLowerCase key)); [|reflexivity].
        unfold res_set, res_setHeader. cbn [resHeaders]. by apply lookup_insert_ne.
    + destruct (arrayIncludes safeHeaders (toLowerCase key)) eqn:Ekey; [|reflexivity].
      unfold res_set, res_setHeader. cbn [resHeaders]. apply lookup_insert_ne.
      intros E. rewrite E in Ekey. congruence.
Qed.

Lemma res_set_marker (value : string) (res : Res) :
  resHeaders (res_set "X-Proxy-By" value res)
  = <["x-proxy-by" := value]> (resHeaders res).
Proof. reflexivity. Qed.

Lemma res_set_content_type (value : string) (res : Res) :
  resHeaders (res_set "Content-Type" value res)
  = <["content-type" := expressContentType value]> (resHeaders res).
Proof. reflexivity. Qed.

(** What express makes of some content types. *)
Example expressContentType_examples :
  expressContentType "application/json" = "application/json; charset=utf-8" /\
  expressContentType "text/html" = "text/html; charset=utf-8" /\
  expressContentType "text/html; charset=utf-8" = "text/html; charset=utf-8" /\
  expressContentType "text/html; charset=iso-8859-1" = "text/html; charset=iso-8859-1" /\
  expressContentType "text/plain;charset = latin1" = "text/plain;charset = latin1" /\
  expressContentType "application/octet-stream" = "application/octet-stream" /\
  expressContentType "image/png" = "image/png".
Proof. repeat split. Qed.

Lemma freshResponse_lookup (k : string) :
  resHeaders (cacheConfiguration freshResponse) !! k =
  if String.eqb k "cache-control" then Some "no-cache, no-store, must-revalidate"
  else if String.eqb k "x-powered-by" then Some "Express"
  else None.
Proof.
  unfold cacheConfiguration, res_setHeader, freshResponse. cbn [resHeaders].
  change (toLowerCase "Cache-Control") with "cache-control".
  destruct (String.eqb k "cache-control") eqn:E1.
  { apply String.eqb_eq in E1. subst k. apply lookup_insert_eq. }
  apply String.eqb_neq in E1. rewrite lookup_insert_ne by congruence.
  destruct (String.eqb k "x-powered-by") eqn:E2.
  { apply String.eqb_eq in E2. subst k. apply lookup_singleton_eq. }
  apply String.eqb_neq in E2. apply lookup_singleton_ne. congruence.
Qed.

Section Relay.

Variable newURL : string -> option string -> completion URL.
Variable JSDOM : string -> string -> completion Document.
Variable domCalls : Document -> completion unit.
Variable serialize : Document -> completion string.
Variable decode : list Byte.byte -> string.
Variable world : string -> FetchInit -> completion UpstreamResponse.

(** A non-redirect answer whose body was read reaches the classifier's two
    branches. *)
Lemma run_classified (req : Request) (url : URL) (response : UpstreamResponse)
    (buf : list Byte.byte) :
  isEmpty (params0 req) = false ->
  newURL (withProtocol (params0 req)) None = Normal url ->
  world (withProtocol (params0 req)) (fetchInit req url) = Normal response ->
  redirectLocation response = None ->
  buffer response = Normal buf ->
  fst (run world (app newURL JSDOM domCalls serialize decode req)) =
  let contentType :=
    orDefault (headersGet "content-type" (headers response)) EmptyString in
  if includes contentType "text/html"
  then htmlBranch newURL JSDOM domCalls serialize decode (withProtocol (params0 req))
         contentType buf (cacheConfiguration freshResponse)
  else passThrough response buf (cacheConfiguration freshResponse).
Proof.
  intros Hne Hparse Hfetch Hredirect Hbuf. unfold app.
  rewrite (run_fetched _ _ _ _ _ _ _ _ _ _ Hne Hparse Hfetch). simpl.
  unfold relay, classify. by rewrite Hredirect, Hbuf.
Qed.

End Relay.

(** C6, as the code has it. A non-redirect answer whose content type does
    not contain [text/html] is relayed with the upstream status, the upstream
    body and the marker header [X-Proxy-By]; each allow-listed header the
    upstream carries is set from the upstream's value as [res.set] stores it:
    as it is, except that a content type without a charset gets
    [; charset=utf-8] appended by express when it is [text/*],
    [application/json] or [application/javascript].  No header outside the
    allow-list comes from the upstream: besides the marker there is only
    express's own [X-Powered-By]. *)
Theorem passthrough_relay
    (newURL : string -> option string -> completion URL)
    (JSDOM : string -> string -> completion Document)
    (domCalls : Document -> completion unit)
    (serialize : Document -> completion string) (decode : list Byte.byte -> string)
    (world : string -> FetchInit -> completion UpstreamResponse)
    (req : Request) (url : URL) (response : UpstreamResponse) (buf : list Byte.byte) :
  isEmpty (params0 req) = false ->
  newURL (withProtocol (params0 req)) None = Normal url ->
  world (withProtocol (params0 req)) (fetchInit req url) = Normal response ->
  redirectLocation response = None ->
  buffer response = Normal buf ->
  includes (orDefault (headersGet "content-type" (headers response)) EmptyString)
    "text/html" = false ->
  let r := fst (run world (app newURL JSDOM domCalls serialize decode req)) in
  statusCode r = status response /\
  sent r = Some (Send (Bytes buf)) /\
  res_get "X-Proxy-By" r = Some "DogeProxy" /\
  (forall k v, In k safeHeaders -> k <> "content-type" ->
               lastHeader k (headers response) = Some v ->
               resHeaders r !! k = Some v) /\
  (forall v, lastHeader "content-type" (headers response) = Some v ->
             resHeaders r !! "content-type" = Some (expressContentType v)) /\
  (forall v, lastHeader "content-type" (headers response) = Some v ->
             hasCharset v = true \/ charsetsLookup (beforeSemicolon v) = None ->
             resHeaders r !! "content-type" = Some v) /\
  (forall k, ~ In k safeHeaders -> k <> "x-proxy-by" ->
             resHeaders r !! k = if String.eqb k "x-powered-by" then Some "Express"
                                 else None).
Proof.
  intros Hne Hparse Hfetch Hredirect Hbuf Hct r. subst r.
  rewrite (run_classified _ _ _ _ _ _ _ _ _ _ Hne Hparse Hfetch Hredirect Hbuf).
  cbv zeta. rewrite Hct.
  unfold passThrough, res_get.
  cbn [statusCode sent res_send res_status resHeaders].
  rewrite !res_set_marker.
  split; [reflexivity|]. split; [reflexivity|].
  split; [apply lookup_insert_eq|].
  assert (Hct' : forall v, lastHeader "content-type" (headers response) = Some v ->
    (<["x-proxy-by" := "DogeProxy"]>
       (resHeaders (copySafeHeaders (headers response)
                      (cacheConfiguration freshResponse)))) !! "content-type"
    = Some (expressContentType v)).
  { intros v Hv. rewrite lookup_insert_ne by discriminate.
    by rewrite copySafeHeaders_lookup, Hv. }
  split; [|split; [exact Hct'|split]].
  - intros k v Hk Hnct Hv.
    rewrite lookup_insert_ne
      by (intros <-; simpl in Hk; intuition discriminate).
    rewrite copySafeHeaders_lookup, Hv.
    rewrite (proj2 (arrayIncludes_In _ _) Hk).
    apply String.eqb_neq in Hnct. by rewrite Hnct.
  - intros v Hv Hsame. rewrite (Hct' v Hv). f_equal. unfold expressContentType.
    destruct Hsame as [-> | ->]; [reflexivity|]. by destruct (hasCharset v).
  - intros k Hk Hmarker.
    rewrite lookup_insert_ne by congruence.
    rewrite copySafeHeaders_lookup, (arrayIncludes_not_In _ _ Hk).
    rewrite freshResponse_lookup.
    destruct (String.eqb k "cache-control") eqn:E; [|reflexivity].
    apply String.eqb_eq in E. subst k. destruct Hk. simpl. tauto.
Qed.

Lemma passthrough_relay_witness :
  let r := fst (run (answering octetResponse)
                  (app sampleURL sampleJSDOM sampleDomCalls sampleSerialize sampleDecode
                     (sampleRequest "a.com/file"))) in
  statusCode r = 206%Z /\
  sent r = Some (Send (Bytes sampleBody)) /\
  res_get "X-Proxy-By" r = Some "DogeProxy" /\
  (forall k v, In k safeHeaders -> k <> "content-type" ->
               lastHeader k (headers octetResponse) = Some v ->
               resHeaders r !! k = Some v) /\
  (forall v, lastHeader "content-type" (headers octetResponse) = Some v ->
             resHeaders r !! "content-type" = Some (expressContentType v)) /\
  (forall v, lastHeader "content-type" (headers octetResponse) = Some v ->
             hasCharset v = true \/ charsetsLookup (beforeSemicolon v) = None ->
             resHeaders r !! "content-type" = Some v) /\
  (forall k, ~ In k safeHeaders -> k <> "x-proxy-by" ->
             resHeaders r !! k = if String.eqb k "x-powered-by" then Some "Express"
                                 else None).
Proof.
  apply (passthrough_relay sampleURL sampleJSDOM sampleDomCalls sampleSerialize
           sampleDecode (answering octetResponse) (sampleRequest "a.com/file")
           {| href := "https://a.com/file"; origin := "https://a.com" |}
           octetResponse sampleBody); reflexivity.
Defined.

(** The sample pass-through answer, header by header. *)
Example passthrough_headers :
  let r := fst (run (answering octetResponse)
                  (app sampleURL sampleJSDOM sampleDomCalls sampleSerialize sampleDecode
                     (sampleRequest "a.com/file"))) in
  resHeaders r !! "content-type" = Some "application/octet-stream" /\
  resHeaders r !! "content-length" = Some "7" /\
  resHeaders r !! "etag" = Some "abc" /\
  resHeaders r !! "cache-control" = Some "no-cache, no-store, must-revalidate" /\
  resHeaders r !! "x-powered-by" = Some "Express" /\
  resHeaders r !! "server" = None /\
  resHeaders r !! "set-cookie" = None.
Proof. vm_compute. repeat split. Qed.

(** C6 as stated fails on the content type: an upstream [application/json]
    reaches the client as [application/json; charset=utf-8], which is not the
    upstream's header value. *)
Lemma json_content_type_not_copied :
  let r := fst (run (answering jsonResponse)
                  (app sampleURL sampleJSDOM sampleDomCalls sampleSerialize sampleDecode
                     (sampleRequest "a.com/data"))) in
  redirectLocation jsonResponse = None /\
  includes (orDefault (headersGet "content-type" (headers jsonResponse)) EmptyString)
    "text/html" = false /\
  In "content-type" safeHeaders /\
  headersGet "content-type" (headers jsonResponse) = Some "application/json" /\
  sent r = Some (Send (Bytes sampleBody)) /\
  resHeaders r !! "content-type" = Some "application/json; charset=utf-8" /\
  resHeaders r !! "content-type" <> headersGet "content-type" (headers jsonResponse).
Proof.
  vm_compute. repeat split; try (by left). discriminate.
Qed.

(* ===================================================================== *)
(** ** The HTML branch *)

(** C10, as the code has it. A non-redirect answer whose content type
    contains [text/html] is sent with status 200 whatever the upstream
    status, without the [X-Proxy-By] marker and without the upstream's
    content-length, cache-control, last-modified or etag: the handler sets
    the content type and nothing else.  The content type is
    [text/html; charset=utf-8] for the rewritten document; in the fallback,
    taken when [modifyHtml] throws, it is the upstream's own content type as
    [res.set] stores it. *)
Theorem html_answer
    (newURL : string -> option string -> completion URL)
    (JSDOM : string -> string -> completion Document)
    (domCalls : Document -> completion unit)
    (serialize : Document -> completion string) (decode : list Byte.byte -> string)
    (world : string -> FetchInit -> completion UpstreamResponse)
    (req : Request) (url : URL) (response : UpstreamResponse) (buf : list Byte.byte) :
  isEmpty (params0 req) = false ->
  newURL (withProtocol (params0 req)) None = Normal url ->
  world (withProtocol (params0 req)) (fetchInit req url) = Normal response ->
  redirectLocation response = None ->
  buffer response = Normal buf ->
  includes (orDefault (headersGet "content-type" (headers response)) EmptyString)
    "text/html" = true ->
  let contentType :=
    orDefault (headersGet "content-type" (headers response)) EmptyString in
  let r := fst (run world (app newURL JSDOM domCalls serialize decode req)) in
  statusCode r = 200%Z /\
  res_get "X-Proxy-By" r = None /\
  resHeaders r !! "cache-control" = Some "no-cache, no-store, must-revalidate" /\
  resHeaders r !! "content-length" = None /\
  resHeaders r !! "last-modified" = None /\
  resHeaders r !! "etag" = None /\
  (forall k, k <> "content-type" ->
             resHeaders r !! k = resHeaders (cacheConfiguration freshResponse) !! k) /\
  match modifyHtml newURL JSDOM domCalls serialize (decode buf)
          (withProtocol (params0 req)) with
  | Normal modifiedHtml =>
      sent r = Some (Send (Text modifiedHtml)) /\
      res_get "Content-Type" r = Some "text/html; charset=utf-8"
  | Throw _ =>
      sent r = Some (Send (Bytes buf)) /\
      res_get "Content-Type" r = Some (expressContentType contentType) /\
      (hasCharset contentType = true -> res_get "Content-Type" r = Some contentType)
  end.
Proof.
  intros Hne Hparse Hfetch Hredirect Hbuf Hct contentType r. subst r.
  rewrite (run_classified _ _ _ _ _ _ _ _ _ _ Hne Hparse Hfetch Hredirect Hbuf).
  cbv zeta. rewrite Hct. unfold htmlBranch, res_get.
  change (toLowerCase "X-Proxy-By") with "x-proxy-by".
  change (toLowerCase "Content-Type") with "content-type".
  assert (Hheaders : forall body value,
    let r := res_send body (res_set "Content-Type" value
                              (cacheConfiguration freshResponse)) in
    statusCode r = 200%Z /\
    resHeaders r !! "x-proxy-by" = None /\
    resHeaders r !! "cache-control" = Some "no-cache, no-store, must-revalidate" /\
    resHeaders r !! "content-length" = None /\
    resHeaders r !! "last-modified" = None /\
    resHeaders r !! "etag" = None /\
    (forall k, k <> "content-type" ->
               resHeaders r !! k = resHeaders (cacheConfiguration freshResponse) !! k) /\
    sent r = Some (Send body) /\
    resHeaders r !! "content-type" = Some (expressContentType value)).
  { intros body value. cbv zeta. cbn [statusCode sent res_send resHeaders].
    rewrite res_set_content_type.
    rewrite !lookup_insert_ne by discriminate. rewrite !freshResponse_lookup.
    repeat (split; [reflexivity|]).
    split; [intros k Hk; by rewrite lookup_insert_ne by congruence|].
    split; [reflexivity | apply lookup_insert_eq]. }
  destruct (modifyHtml _ _ _ _ _ _) as [modifiedHtml | parseError].
  - destruct (Hheaders (Text modifiedHtml) "text/html; charset=utf-8")
      as (H1 & H2 & H3 & H4 & H5 & H6 & H7 & H8 & H9). auto 12.
  - destruct (Hheaders (Bytes buf) contentType)
      as (H1 & H2 & H3 & H4 & H5 & H6 & H7 & H8 & H9).
    repeat (split; [assumption|]).
    intros Hcs. subst contentType. rewrite H9. unfold expressContentType.
    by rewrite Hcs.
Qed.

Lemma html_answer_witness :
  let contentType :=
    orDefault (headersGet "content-type" (headers notFoundPage)) EmptyString in
  let r := fst (run (answering notFoundPage)
                  (app sampleURL sampleJSDOM sampleDomCalls sampleSerialize sampleDecode
                     (sampleRequest "a.com/missing"))) in
  statusCode r = 200%Z /\
  res_get "X-Proxy-By" r = None /\
  resHeaders r !! "cache-control" = Some "no-cache, no-store, must-revalidate" /\
  resHeaders r !! "content-length" = None /\
  resHeaders r !! "last-modified" = None /\
  resHeaders r !! "etag" = None /\
  (forall k, k <> "content-type" ->
             resHeaders r !! k = resHeaders (cacheConfiguration freshResponse) !! k) /\
  match modifyHtml sampleURL sampleJSDOM sampleDomCalls sampleSerialize
          (sampleDecode samplePage) "https://a.com/missing" with
  | Normal modifiedHtml =>
      sent r = Some (Send (Text modifiedHtml)) /\
      res_get "Content-Type" r = Some "text/html; charset=utf-8"
  | Throw _ =>
      sent r = Some (Send (Bytes samplePage)) /\
      res_get "Content-Type" r = Some (expressContentType contentType) /\
      (hasCharset contentType = true -> res_get "Content-Type" r = Some contentType)
  end.
Proof.
  apply (html_answer sampleURL sampleJSDOM sampleDomCalls sampleSerialize sampleDecode
           (answering notFoundPage) (sampleRequest "a.com/missing")
           {| href := "https://a.com/missing"; origin := "https://a.com" |}
           notFoundPage samplePage); reflexivity.
Defined.

(* ===================================================================== *)
(** ** More on the rewriter: what it leaves alone *)

Lemma lookupAttr_storeAttr_is_Some (name other value : string)
    (attrs : list (string * string)) :
  is_Some (lookupAttr other attrs) ->
  is_Some (lookupAttr other (storeAttr name value attrs)).
Proof.
  destruct (String.eqb name other) eqn:E.
  - apply String.eqb_eq in E. subst other. intros _.
    rewrite lookupAttr_storeAttr_eq. eauto.
  - apply String.eqb_neq in E. by rewrite lookupAttr_storeAttr_ne.
Qed.

Lemma rewriteLink_cases (newURL : string -> option string -> completion URL)
    (targetUrl : string) (url : URL) (el : Element) :
  rewriteLink newURL targetUrl url el = el \/
  (exists value, rewriteLink newURL targetUrl url el
                 = setAttribute (linkAttr el) value el) \/
  (exists value, rewriteLink newURL targetUrl url el
                 = setAttribute (linkAttr el) value
                     (setAttribute "rel" "noopener noreferrer"
                        (setAttribute "target" "_blank" el))).
Proof.
  unfold rewriteLink.
  destruct (getAttribute (linkAttr el) el) as [v|]; [|by left].
  destruct (notProxyable v); [by left|].
  destruct (newURL v (Some targetUrl)) as [r|]; [|by left].
  destruct (newURL (href r) None) as [r'|]; [|by left].
  destruct (negb _); right; [right | left]; eauto.
Qed.

Lemma rewriteLink_children (newURL : string -> option string -> completion URL)
    (targetUrl : string) (url : URL) (el : Element) :
  children (rewriteLink newURL targetUrl url el) = children el.
Proof.
  destruct (rewriteLink_cases newURL targetUrl url el) as [-> | [[v ->] | [v ->]]];
    reflexivity.
Qed.

Lemma rewriteLink_other_attribute
    (newURL : string -> option string -> completion URL)
    (targetUrl : string) (url : URL) (el : Element) (name : string) :
  name <> linkAttr el -> name <> "target" -> name <> "rel" ->
  getAttribute name (rewriteLink newURL targetUrl url el) = getAttribute name el.
Proof.
  intros H1 H2 H3.
  destruct (rewriteLink_cases newURL targetUrl url el) as [-> | [[v ->] | [v ->]]];
    [reflexivity | |]; by rewrite !getAttribute_setAttribute_ne by congruence.
Qed.

Lemma rewriteLink_keeps_attribute
    (newURL : string -> option string -> completion URL)
    (targetUrl : string) (url : URL) (el : Element) (name : string) :
  is_Some (getAttribute name el) ->
  is_Some (getAttribute name (rewriteLink newURL targetUrl url el)).
Proof.
  intros H. unfold getAttribute in *.
  destruct (rewriteLink_cases newURL targetUrl url el) as [-> | [[v ->] | [v ->]]];
    [exact H | |]; cbn [attributes setAttribute];
    repeat apply lookupAttr_storeAttr_is_Some; exact H.
Qed.

(** X1. A reference that does not resolve (the first [new URL] throws, or
    the one that reads the resolved [href] back does) is caught per element:
    the element leaves [modifyHtml] with the attributes it came with. *)
Theorem unresolvable_left_alone
    (newURL : string -> option string -> completion URL)
    (targetUrl : string) (url : URL) (doc : Document) (i : nat) (el : Element)
    (originalValue : string) (e : Error) :
  nodes doc !! i = Some el ->
  getAttribute (linkAttr el) el = Some originalValue ->
  newURL originalValue (Some targetUrl) = Throw e \/
  (exists resolved, newURL originalValue (Some targetUrl) = Normal resolved /\
     newURL (href resolved) None = Throw e) ->
  exists el', nodes (modifyDocument newURL targetUrl url doc) !! i = Some el' /\
    attributes el' = attributes el.
Proof.
  intros H Hattr Hfail. apply untouched_attributes; [exact H|].
  unfold rewriteLink. rewrite Hattr. destruct (notProxyable originalValue); [reflexivity|].
  destruct Hfail as [-> | (resolved & -> & ->)]; reflexivity.
Qed.

Lemma unresolvable_left_alone_witness :
  exists el',
    nodes (modifyDocument sampleURL wikipedia wikipediaURL basedDocument) !! 4%nat
      = Some el' /\
    attributes el' = [("href", "https://")].
Proof.
  refine (unresolvable_left_alone sampleURL wikipedia wikipediaURL basedDocument 4
            (element "a" [("href", "https://")] "broken" []) "https://" invalidURL
            _ _ _).
  - reflexivity.
  - reflexivity.
  - left. reflexivity.
Defined.



(** X3. [modifyHtml] removes no attribute and writes only to the attribute
    the link loop reads, to [target] and to [rel]: on every parsed element,
    an attribute that was present is still present, and an attribute under
    any other name has the value it had. *)
Theorem other_attributes_kept
    (newURL : string -> option string -> completion URL)
    (targetUrl : string) (url : URL) (doc : Document) (i : nat) (el : Element) :
  nodes doc !! i = Some el ->
  exists el', nodes (modifyDocument newURL targetUrl url doc) !! i = Some el' /\
    localName el' = localName el /\
    (forall name, is_Some (getAttribute name el) -> is_Some (getAttribute name el')) /\
    (forall name, name <> linkAttr el -> name <> "target" -> name <> "rel" ->
                  getAttribute name el' = getAttribute name el).
Proof.
  intros H.
  destruct (modifyDocument_lookup newURL targetUrl url doc i el H)
    as (el' & Hl & Ha & _ & Hn).
  exists el'. split; [exact Hl|]. split; [exact Hn|].
  assert (Hget : forall name,
    getAttribute name el' = getAttribute name (linked newURL targetUrl url el)).
  { intros name. unfold getAttribute. by rewrite Ha. }
  split; intros name; rewrite Hget; unfold linked; destruct (selectedBy _ _);
    auto using rewriteLink_keeps_attribute, rewriteLink_other_attribute.
Qed.

Lemma other_attributes_kept_witness :
  exists el',
    nodes (modifyDocument sampleURL wikipedia wikipediaURL basedDocument) !! 5%nat
      = Some el' /\
    localName el' = "a" /\
    (forall name,
       is_Some (getAttribute name
                  (element "a" [("class", "nav"); ("href", "/home"); ("id", "h")]
                     "home" [])) ->
       is_Some (getAttribute name el')) /\
    (forall name, name <> "href" -> name <> "target" -> name <> "rel" ->
       getAttribute name el' =
       getAttribute name
         (element "a" [("class", "nav"); ("href", "/home"); ("id", "h")] "home" [])).
Proof.
  refine (other_attributes_kept sampleURL wikipedia wikipediaURL basedDocument 5
            (element "a" [("class", "nav"); ("href", "/home"); ("id", "h")] "home" [])
            _).
  reflexivity.
Defined.

(** The anchor of the witness after the rewrite: [class] and [id] in place,
    [href] through the proxy. *)
Example attributes_in_place :
  attributes <$>
    nodes (modifyDocument sampleURL wikipedia wikipediaURL basedDocument) !! 5%nat
  = Some [("class", "nav"); ("href", "/proxy/https://en.wikipedia.org/home");
          ("id", "h")].
Proof. vm_compute. reflexivity. Qed.

(* ===================================================================== *)
(** ** The [base] element *)

Lemma forEach_length (ids : list nat) (f : Element -> Element) (doc : Document) :
  length (nodes (forEach ids f doc)) = length (nodes doc).
Proof.
  revert doc. induction ids as [|a ids IH]; intros doc; [reflexivity|].
  rewrite forEach_cons, IH. simpl. apply length_alter.
Qed.

Section Loops.

Variable newURL : string -> option string -> completion URL.
Variable targetUrl : string.
Variable url : URL.

Lemma rewriteLinks_length (selectors : list Selector) (doc : Document) :
  length (nodes (rewriteLinks newURL targetUrl url selectors doc)) = length (nodes doc).
Proof.
  revert doc. induction selectors as [|s rest IH]; intros doc; [reflexivity|].
  unfold rewriteLinks in *. cbn [fold_left]. by rewrite IH, forEach_length.
Qed.

Lemma rewriteLinks_head (selectors : list Selector) (doc : Document) :
  head (rewriteLinks newURL targetUrl url selectors doc) = head doc.
Proof.
  revert doc. induction selectors as [|s rest IH]; intros doc; [reflexivity|].
  unfold rewriteLinks in *. cbn [fold_left]. by rewrite IH, forEach_head.
Qed.

Lemma afterLoops_length (doc : Document) :
  length (nodes (afterLoops newURL targetUrl url doc)) = length (nodes doc).
Proof. unfold afterLoops. by rewrite forEach_length, rewriteLinks_length. Qed.

Lemma afterLoops_head (doc : Document) :
  head (afterLoops newURL targetUrl url doc) = head doc.
Proof. unfold afterLoops. by rewrite forEach_head, rewriteLinks_head. Qed.

Lemma afterLoops_lookup (doc : Document) (i : nat) :
  nodes (afterLoops newURL targetUrl url doc) !! i =
  (fun el => scripted (linked newURL targetUrl url el)) <$> nodes doc !! i.
Proof.
  unfold afterLoops. rewrite forEach_query_lookup.
  rewrite rewriteLinks_lookup by apply linkSelectors_tags.
  by destruct (nodes doc !! i).
Qed.

Lemma loops_localName (el : Element) :
  localName (scripted (linked newURL targetUrl url el)) = localName el.
Proof.
  unfold scripted. destruct (matchesSelector _ _);
    [rewrite neutralizeScript_localName|]; unfold linked;
    destruct (selectedBy _ _); try apply rewriteLink_localName; reflexivity.
Qed.

Lemma loops_children (el : Element) :
  localName el <> "script" ->
  children (scripted (linked newURL targetUrl url el)) = children el.
Proof.
  intros Hname. unfold scripted, matchesSelector. cbn [selTag scriptSelector].
  assert (Hl : localName (linked newURL targetUrl url el) = localName el).
  { unfold linked. destruct (selectedBy _ _); [apply rewriteLink_localName | reflexivity]. }
  rewrite Hl. apply String.eqb_neq in Hname. rewrite Hname. simpl.
  unfold linked. destruct (selectedBy _ _); [apply rewriteLink_children | reflexivity].
Qed.

Lemma modifyDocument_afterLoops (doc : Document) :
  modifyDocument newURL targetUrl url doc =
  match querySelectorAttached baseSelector (afterLoops newURL targetUrl url doc)
          (detachedByScripts (rewriteLinks newURL targetUrl url linkSelectors doc)) with
  | Some _ => afterLoops newURL targetUrl url doc
  | None =>
      insertFirstChild (head (afterLoops newURL targetUrl url doc)) (baseElement url)
        (afterLoops newURL targetUrl url doc)
  end.
Proof. reflexivity. Qed.

End Loops.

Lemma querySelector_absent (doc : Document) (detached : list nat) :
  (forall i el, nodes doc !! i = Some el -> localName el <> "base") ->
  querySelectorAttached baseSelector doc detached = None.
Proof.
  intros Hno. unfold querySelectorAttached.
  destruct (List.filter _ (querySelectorAll baseSelector doc)) as [|i rest] eqn:E;
    [reflexivity|].
  assert (Hin : In i (querySelectorAll baseSelector doc)).
  { eapply (proj1 (List.filter_In _ _ _)). rewrite E. by left. }
  apply querySelectorAll_In in Hin. unfold matchesAt in Hin.
  destruct (nodes doc !! i) as [el|] eqn:Hi; [|discriminate].
  apply matchesSelector_tag in Hin. by destruct (Hno i el Hi).
Qed.





(** X4. A document without a [base] element gains exactly one: a new element
    with [href] the target's origin followed by [/] and [target="_blank"],
    placed in front of the other children of [head]; it is the only [base]
    element of the result. *)
Theorem base_inserted
    (newURL : string -> option string -> completion URL)
    (targetUrl : string) (url : URL) (doc : Document) (headEl : Element) :
  (forall i el, nodes doc !! i = Some el -> localName el <> "base") ->
  nodes doc !! head doc = Some headEl ->
  localName headEl = "head" ->
  let out := modifyDocument newURL targetUrl url doc in
  let new := length (nodes doc) in
  length (nodes out) = S (length (nodes doc)) /\
  (exists base, nodes out !! new = Some base /\ localName base = "base" /\
     attributes base = [("href", origin url +:+ "/"); ("target", "_blank")]) /\
  (exists headEl', nodes out !! head doc = Some headEl' /\
     children headEl' = new :: children headEl) /\
  (forall j el', nodes out !! j = Some el' -> localName el' = "base" -> j = new).
Proof.
  intros Hno Hhead Hname out new. subst out new.
  rewrite modifyDocument_afterLoops.
  set (d := afterLoops newURL targetUrl url doc).
  assert (Hd : forall i, nodes d !! i
             = (fun el => scripted (linked newURL targetUrl url el)) <$> nodes doc !! i)
    by apply afterLoops_lookup.
  assert (Hlen : length (nodes d) = length (nodes doc)) by apply afterLoops_length.
  assert (Hh : head d = head doc) by apply afterLoops_head.
  rewrite querySelector_absent.
  2:{ intros i el Hi. rewrite Hd in Hi.
      destruct (nodes doc !! i) as [el0|] eqn:E; [|discriminate].
      simpl in Hi. injection Hi as <-. rewrite loops_localName. by apply (Hno i). }
  unfold insertFirstChild. cbn [nodes]. rewrite Hh, Hlen.
  split; [rewrite length_app, length_alter, Hlen; simpl; lia|].
  split.
  { exists (baseElement url). split; [|by split].
    rewrite lookup_app_r by (rewrite length_alter; lia).
    rewrite length_alter, Hlen, Nat.sub_diag. reflexivity. }
  split.
  { eexists. split.
    - rewrite lookup_app_l
        by (rewrite length_alter, Hlen; by eapply lookup_lt_Some).
      rewrite list_lookup_alter_eq, Hd, Hhead. reflexivity.
    - cbn [children]. rewrite loops_children; [reflexivity|]. by rewrite Hname. }
  intros j el' Hj Hbase.
  destruct (decide (j < length (nodes doc))) as [Hlt | Hge].
  - exfalso. rewrite lookup_app_l in Hj by (by rewrite length_alter, Hlen).
    destruct (decide (head doc = j)) as [Heq | Hne].
    + rewrite Heq, list_lookup_alter_eq, Hd in Hj.
      apply fmap_Some in Hj as (x & Hx & ->).
      apply fmap_Some in Hx as (el0 & E & ->).
      apply (Hno j el0 E). rewrite <- (loops_localName newURL targetUrl url el0).
      exact Hbase.
    + rewrite list_lookup_alter_ne, Hd in Hj by exact Hne.
      apply fmap_Some in Hj as (el0 & E & ->).
      apply (Hno j el0 E). rewrite <- (loops_localName newURL targetUrl url el0).
      exact Hbase.
  - apply lookup_lt_Some in Hj.
    rewrite length_app, length_alter, Hlen in Hj. simpl in Hj. lia.
Qed.

Lemma base_inserted_witness :
  let out := modifyDocument sampleURL wikipedia wikipediaURL sampleDocument in
  let new := length (nodes sampleDocument) in
  length (nodes out) = S (length (nodes sampleDocument)) /\
  (exists base, nodes out !! new = Some base /\ localName base = "base" /\
     attributes base = [("href", "https://en.wikipedia.org/"); ("target", "_blank")]) /\
  (exists headEl', nodes out !! 1%nat = Some headEl' /\
     children headEl' = new :: [2; 3]%nat) /\
  (forall j el', nodes out !! j = Some el' -> localName el' = "base" -> j = new).
Proof.
  refine (base_inserted sampleURL wikipedia wikipediaURL sampleDocument
            (element "head" [] EmptyString [2; 3]%nat) _ _ _).
  - intros i el Hi.
    do 10 (destruct i as [|i]; [injection Hi as <-; vm_compute; discriminate|]).
    discriminate.
  - reflexivity.
  - reflexivity.
Defined.



(** A [base] below a script that the loop neutralizes leaves the document
    with the script's old content, and a new [base] is inserted in [head]:
    six elements go in, seven come out. *)
Example detached_base_replaced :
  length (nodes (modifyDocument sampleURL wikipedia wikipediaURL svgScriptDocument))
    = 7%nat /\
  children <$>
    nodes (modifyDocument sampleURL wikipedia wikipediaURL svgScriptDocument) !! 1%nat
    = Some [6%nat] /\
  children <$>
    nodes (modifyDocument sampleURL wikipedia wikipediaURL svgScriptDocument) !! 4%nat
    = Some [].
Proof. vm_compute. repeat split. Qed.

Lemma modifyDocument_length
    (newURL : string -> option string -> completion URL)
    (targetUrl : string) (url : URL) (doc : Document) :
  length (nodes doc) <= length (nodes (modifyDocument newURL targetUrl url doc)).
Proof.
  rewrite modifyDocument_afterLoops.
  destruct (querySelectorAttached _ _ _).
  - by rewrite afterLoops_length.
  - unfold insertFirstChild. cbn [nodes].
    rewrite length_app, length_alter, afterLoops_length. lia.
Qed.

Lemma openDivs_unclosedDivs (n : nat) : openDivs (unclosedDivs n) = Some n.
Proof.
  induction n as [|n IH]; [reflexivity|].
  cbn [unclosedDivs]. cbn [openDivs]. by rewrite IH.
Qed.

Lemma nestedDocument_length (n : nat) : length (nodes (nestedDocument n)) = n + 3.
Proof. cbn [nodes nestedDocument length]. rewrite length_map, length_seq. lia. Qed.

(** On a page nested deeper than the sample serializer can take, [modifyHtml]
    throws after the parser has accepted the page. *)
Lemma modifyHtml_deep (n : nat) (targetUrl : string) (url : URL) :
  sampleStack < n ->
  sampleURL targetUrl None = Normal url ->
  modifyHtml sampleURL sampleJSDOM sampleDomCalls sampleSerialize
    (sampleDecode (deepBody n)) targetUrl = Throw rangeError.
Proof.
  intros Hn Hurl. unfold modifyHtml, sampleDecode, deepBody.
  rewrite String.string_of_list_byte_of_string.
  unfold sampleJSDOM. rewrite openDivs_unclosedDivs.
  destruct n as [|n]; [unfold sampleStack in Hn; lia|].
  rewrite Hurl. cbn [sampleDomCalls]. unfold sampleSerialize.
  assert (Hlen : Nat.ltb sampleStack
                   (length (nodes (modifyDocument sampleURL targetUrl url
                                     (nestedDocument (S n))))) = true).
  { apply Nat.ltb_lt.
    pose proof (modifyDocument_length sampleURL targetUrl url (nestedDocument (S n))).
    rewrite nestedDocument_length in H. lia. }
  by rewrite Hlen.
Qed.

Lemma deep_page_fallback (n : nat) :
  sampleStack < n ->
  let r := fst (run (answering (deepPage n))
                  (app sampleURL sampleJSDOM sampleDomCalls sampleSerialize sampleDecode
                     (sampleRequest "a.com/deep"))) in
  statusCode r = 200%Z /\
  sent r = Some (Send (Bytes (deepBody n))) /\
  resHeaders r !! "content-type" = Some "text/html; charset=iso-8859-1".
Proof.
  intros Hn r. subst r.
  rewrite (run_classified sampleURL sampleJSDOM sampleDomCalls sampleSerialize
             sampleDecode (answering (deepPage n)) (sampleRequest "a.com/deep")
             {| href := "https://a.com/deep"; origin := "https://a.com" |}
             (deepPage n) (deepBody n) eq_refl eq_refl eq_refl eq_refl eq_refl).
  cbv zeta.
  change (orDefault (headersGet "content-type" (headers (deepPage n))) EmptyString)
    with "text/html; charset=iso-8859-1".
  change (includes "text/html; charset=iso-8859-1" "text/html") with true.
  cbv iota. unfold htmlBranch.
  change (withProtocol (params0 (sampleRequest "a.com/deep"))) with "https://a.com/deep".
  rewrite (modifyHtml_deep n "https://a.com/deep"
             {| href := "https://a.com/deep"; origin := "https://a.com" |} Hn eq_refl).
  split; [reflexivity|]. split; [reflexivity|].
  cbn [resHeaders res_send]. rewrite res_set_content_type, lookup_insert_eq.
  reflexivity.
Qed.

(** C10 as stated fails in the fallback: a page nested 20000 deep is parsed,
    the rewrite then runs out of stack, and the answer carries the upstream's
    content type, which is the first of the allow-listed upstream
    headers. *)
Lemma deep_page_fallback_content_type :
  let r := fst (run (answering (deepPage deepNesting))
                  (app sampleURL sampleJSDOM sampleDomCalls sampleSerialize sampleDecode
                     (sampleRequest "a.com/deep"))) in
  redirectLocation (deepPage deepNesting) = None /\
  includes (orDefault (headersGet "content-type" (headers (deepPage deepNesting)))
              EmptyString) "text/html" = true /\
  In "content-type" safeHeaders /\
  headersGet "content-type" (headers (deepPage deepNesting))
    = Some "text/html; charset=iso-8859-1" /\
  statusCode r = 200%Z /\
  sent r = Some (Send (Bytes (deepBody deepNesting))) /\
  resHeaders r !! "content-type" = Some "text/html; charset=iso-8859-1".
Proof.
  intros r. split; [reflexivity|]. split; [reflexivity|].
  split; [by left|]. split; [reflexivity|].
  apply (deep_page_fallback deepNesting). unfold deepNesting, sampleStack. lia.
Qed.

(* ===================================================================== *)
(** ** More on the handler *)

(** X6. After the scheme defaulting the target starts with [http://] or
    [https://] whatever the input was, and defaulting a second time changes
    nothing. *)
Theorem withProtocol_scheme (targetUrl : string) :
  (startsWith (withProtocol targetUrl) "http://" = true \/
   startsWith (withProtocol targetUrl) "https://" = true) /\
  withProtocol (withProtocol targetUrl) = withProtocol targetUrl.
Proof.
  assert (H : startsWith (withProtocol targetUrl) "http://" = true \/
              startsWith (withProtocol targetUrl) "https://" = true).
  { unfold withProtocol.
    destruct (startsWith targetUrl "http://") eqn:E1; [by left|].
    destruct (startsWith targetUrl "https://") eqn:E2; [by right|].
    right. apply startsWith_append. }
  split; [exact H|].
  unfold withProtocol at 1. by destruct H as [-> | ->]; rewrite ?andb_false_r.
Qed.

Section HandlerFacts.

Variable newURL : string -> option string -> completion URL.
Variable JSDOM : string -> string -> completion Document.
Variable domCalls : Document -> completion unit.
Variable serialize : Document -> completion string.
Variable decode : list Byte.byte -> string.

Lemma classify_sent (targetUrl : string) (response : UpstreamResponse) (res : Res) :
  exists body,
    sent (classify newURL JSDOM domCalls serialize decode targetUrl response res)
    = Some (Send body).
Proof.
  unfold classify, htmlBranch, passThrough, errorResponder.
  destruct (buffer response); [|eauto].
  destruct (includes _ _); [|eauto].
  destruct (modifyHtml _ _ _ _ _); eauto.
Qed.

Lemma relay_sent (targetUrl : string) (response : UpstreamResponse) (res : Res) :
  is_Some (sent (relay newURL JSDOM domCalls serialize decode targetUrl response res)).
Proof.
  unfold relay. destruct (redirectLocation response) as [location|].
  - destruct (newURL location _); simpl; eauto.
  - destruct (classify_sent targetUrl response res) as [body ->]. eauto.
Qed.

Lemma errorResponder_headers (error : Error) (res : Res) :
  resHeaders (errorResponder error res) = resHeaders res.
Proof. reflexivity. Qed.

Lemma passThrough_cache_control (response : UpstreamResponse) (buf : list Byte.byte)
    (res : Res) :
  resHeaders (passThrough response buf res) !! "cache-control" =
  match lastHeader "cache-control" (headers response) with
  | Some v => Some v
  | None => resHeaders res !! "cache-control"
  end.
Proof.
  unfold passThrough. cbn [resHeaders res_send res_status].
  rewrite res_set_marker, lookup_insert_ne by discriminate.
  by rewrite copySafeHeaders_lookup.
Qed.

Lemma htmlBranch_cache_control (targetUrl contentType : string) (buf : list Byte.byte)
    (res : Res) :
  resHeaders (htmlBranch newURL JSDOM domCalls serialize decode targetUrl contentType buf res)
    !! "cache-control" = resHeaders res !! "cache-control".
Proof.
  unfold htmlBranch.
  destruct (modifyHtml _ _ _ _ _ _); cbn [resHeaders res_send];
    rewrite res_set_content_type; by rewrite lookup_insert_ne by discriminate.
Qed.

(** The cache-control of an answer built from a fetched response is the one
    the response object had, unless the upstream's own takes its place. *)
Lemma relay_cache_control (targetUrl : string) (response : UpstreamResponse) (res : Res) :
  resHeaders (relay newURL JSDOM domCalls serialize decode targetUrl response res)
    !! "cache-control" = resHeaders res !! "cache-control" \/
  exists v, lastHeader "cache-control" (headers response) = Some v /\
    resHeaders (relay newURL JSDOM domCalls serialize decode targetUrl response res)
      !! "cache-control" = Some v.
Proof.
  unfold relay. destruct (redirectLocation response) as [location|].
  - left. by destruct (newURL location _).
  - unfold classify. destruct (buffer response); [|by left].
    destruct (includes _ _).
    + left. apply htmlBranch_cache_control.
    + rewrite passThrough_cache_control.
      destruct (lastHeader _ _) as [v|]; [right; eauto | by left].
Qed.

End HandlerFacts.

(** X7. Once the awaited promises settle, the handler ends the response,
    by [res.send] or by [res.redirect]: whatever the request, and whether the
    fetch resolves or rejects and the body read resolves or rejects, no
    settled outcome leaves the request without an answer.  (A promise that
    never settles leaves the response open; the code sets no timeout.) *)
Theorem always_answers
    (newURL : string -> option string -> completion URL)
    (JSDOM : string -> string -> completion Document)
    (domCalls : Document -> completion unit)
    (serialize : Document -> completion string) (decode : list Byte.byte -> string)
    (world : string -> FetchInit -> completion UpstreamResponse) (req : Request) :
  is_Some (sent (fst (run world (app newURL JSDOM domCalls serialize decode req)))).
Proof.
  unfold app, proxyRoute.
  destruct (isEmpty (params0 req)); [simpl; eauto|].
  destruct (newURL _ None) as [url|]; [|simpl; eauto].
  cbn [run]. destruct (world _ _) as [response|]; cbn [run fst]; [|simpl; eauto].
  apply relay_sent.
Qed.

(** X8. A request makes at most one upstream request, and none besides the
    target: it goes to the scheme-defaulted target, with the method of the
    inbound request, the fixed [User-Agent], and redirects left to the
    handler ([redirect: 'manual']). *)
Theorem at_most_one_fetch
    (newURL : string -> option string -> completion URL)
    (JSDOM : string -> string -> completion Document)
    (domCalls : Document -> completion unit)
    (serialize : Document -> completion string) (decode : list Byte.byte -> string)
    (world : string -> FetchInit -> completion UpstreamResponse) (req : Request) :
  (length (snd (run world (app newURL JSDOM domCalls serialize decode req))) <= 1)%nat /\
  forall target init,
    In (target, init) (snd (run world (app newURL JSDOM domCalls serialize decode req))) ->
    target = withProtocol (params0 req) /\
    initMethod init = method req /\
    initRedirect init = "manual" /\
    lookupAttr "User-Agent" (initHeaders init) = Some userAgent.
Proof.
  unfold app, proxyRoute.
  destruct (isEmpty (params0 req)); [simpl; split; [lia | tauto]|].
  destruct (newURL _ None) as [url|]; [|simpl; split; [lia | tauto]].
  cbn [run].
  destruct (world _ _) as [response|]; cbn [run snd length]; (split; [lia|]);
    intros target init [Heq | []]; injection Heq as <- <-; auto.
Qed.

(** X9. The fetch carries the inbound [Accept] and [Accept-Language] when
    they are there and not empty, and the fixed defaults when a header is
    missing or empty; [Referer] is the target's origin. *)
Theorem forwarded_request_headers
    (newURL : string -> option string -> completion URL)
    (JSDOM : string -> string -> completion Document)
    (domCalls : Document -> completion unit)
    (serialize : Document -> completion string) (decode : list Byte.byte -> string)
    (world : string -> FetchInit -> completion UpstreamResponse)
    (req : Request) (url : URL) :
  isEmpty (params0 req) = false ->
  newURL (withProtocol (params0 req)) None = Normal url ->
  exists init,
    snd (run world (app newURL JSDOM domCalls serialize decode req))
      = [(withProtocol (params0 req), init)] /\
    lookupAttr "Referer" (initHeaders init) = Some (origin url) /\
    (forall v, lookupAttr "accept" (reqHeaders req) = Some v -> isEmpty v = false ->
       lookupAttr "Accept" (initHeaders init) = Some v) /\
    (lookupAttr "accept" (reqHeaders req) = None \/
     lookupAttr "accept" (reqHeaders req) = Some EmptyString ->
       lookupAttr "Accept" (initHeaders init)
       = Some "text/html,application/xhtml+xml,*/*") /\
    (forall v, lookupAttr "accept-language" (reqHeaders req) = Some v ->
       isEmpty v = false ->
       lookupAttr "Accept-Language" (initHeaders init) = Some v) /\
    (lookupAttr "accept-language" (reqHeaders req) = None \/
     lookupAttr "accept-language" (reqHeaders req) = Some EmptyString ->
       lookupAttr "Accept-Language" (initHeaders init) = Some "en-US,en;q=0.9").
Proof.
  intros Hne Hparse. exists (fetchInit req url). split.
  { unfold app, proxyRoute. rewrite Hne, Hparse. cbn [run].
    by destruct (world _ _). }
  change (lookupAttr "Accept" (initHeaders (fetchInit req url)))
    with (Some (orDefault (lookupAttr "accept" (reqHeaders req))
                  "text/html,application/xhtml+xml,*/*")).
  change (lookupAttr "Accept-Language" (initHeaders (fetchInit req url)))
    with (Some (orDefault (lookupAttr "accept-language" (reqHeaders req))
                  "en-US,en;q=0.9")).
  split; [reflexivity|]. unfold orDefault.
  split; [by intros v -> ->|]. split; [by intros [-> | ->]|].
  split; [by intros v -> ->|]. by intros [-> | ->].
Qed.

Lemma forwarded_request_headers_witness :
  exists init,
    snd (run unreachable
           (app sampleURL sampleJSDOM sampleDomCalls sampleSerialize sampleDecode
              (sampleRequest "a.com/file")))
      = [("https://a.com/file", init)] /\
    lookupAttr "Referer" (initHeaders init) = Some "https://a.com" /\
    (forall v, lookupAttr "accept" (reqHeaders (sampleRequest "a.com/file")) = Some v ->
       isEmpty v = false ->
       lookupAttr "Accept" (initHeaders init) = Some v) /\
    (lookupAttr "accept" (reqHeaders (sampleRequest "a.com/file")) = None \/
     lookupAttr "accept" (reqHeaders (sampleRequest "a.com/file")) = Some EmptyString ->
       lookupAttr "Accept" (initHeaders init)
       = Some "text/html,application/xhtml+xml,*/*") /\
    (forall v,
       lookupAttr "accept-language" (reqHeaders (sampleRequest "a.com/file")) = Some v ->
       isEmpty v = false ->
       lookupAttr "Accept-Language" (initHeaders init) = Some v) /\
    (lookupAttr "accept-language" (reqHeaders (sampleRequest "a.com/file")) = None \/
     lookupAttr "accept-language" (reqHeaders (sampleRequest "a.com/file"))
       = Some EmptyString ->
       lookupAttr "Accept-Language" (initHeaders init) = Some "en-US,en;q=0.9").
Proof.
  apply (forwarded_request_headers sampleURL sampleJSDOM sampleDomCalls sampleSerialize sampleDecode
           unreachable (sampleRequest "a.com/file")
           {| href := "https://a.com/file"; origin := "https://a.com" |});
    reflexivity.
Defined.

(** The sample request has an [Accept] and no [Accept-Language]. *)
Example forwarded_sample :
  initHeaders <$> (snd <$> List.hd_error
    (snd (run unreachable
            (app sampleURL sampleJSDOM sampleDomCalls sampleSerialize sampleDecode
               (sampleRequest "a.com/file")))))
  = Some [("User-Agent", userAgent); ("Accept", "text/html");
          ("Accept-Language", "en-US,en;q=0.9"); ("Referer", "https://a.com")].
Proof. reflexivity. Qed.

(** X10. When the body of a non-redirect answer cannot be read
    ([response.buffer()] rejects), the client gets the 502 error document
    with that error's message, whatever the content type was. *)
Theorem body_read_failure_502
    (newURL : string -> option string -> completion URL)
    (JSDOM : string -> string -> completion Document)
    (domCalls : Document -> completion unit)
    (serialize : Document -> completion string) (decode : list Byte.byte -> string)
    (world : string -> FetchInit -> completion UpstreamResponse)
    (req : Request) (url : URL) (response : UpstreamResponse) (error : Error) :
  isEmpty (params0 req) = false ->
  newURL (withProtocol (params0 req)) None = Normal url ->
  world (withProtocol (params0 req)) (fetchInit req url) = Normal response ->
  redirectLocation response = None ->
  buffer response = Throw error ->
  statusCode (fst (run world (app newURL JSDOM domCalls serialize decode req))) = 502%Z /\
  sent (fst (run world (app newURL JSDOM domCalls serialize decode req)))
    = Some (Send (Text (errorPage (message error)))) /\
  includes (errorPage (message error)) (message error) = true.
Proof.
  intros Hne Hparse Hfetch Hredirect Hbuf. unfold app.
  rewrite (run_fetched _ _ _ _ _ _ _ _ _ _ Hne Hparse Hfetch). cbn [fst].
  unfold relay, classify. rewrite Hredirect, Hbuf.
  repeat split. apply errorPage_message.
Qed.

Lemma body_read_failure_502_witness :
  statusCode (fst (run (answering brokenBodyResponse)
                     (app sampleURL sampleJSDOM sampleDomCalls sampleSerialize sampleDecode
                        (sampleRequest "a.com/page")))) = 502%Z /\
  sent (fst (run (answering brokenBodyResponse)
               (app sampleURL sampleJSDOM sampleDomCalls sampleSerialize sampleDecode
                  (sampleRequest "a.com/page"))))
    = Some (Send (Text (errorPage "aborted"))) /\
  includes (errorPage "aborted") "aborted" = true.
Proof.
  apply (body_read_failure_502 sampleURL sampleJSDOM sampleDomCalls sampleSerialize sampleDecode
           (answering brokenBodyResponse) (sampleRequest "a.com/page")
           {| href := "https://a.com/page"; origin := "https://a.com" |}
           brokenBodyResponse abortedError); reflexivity.
Defined.

(** X11. Outside the 3xx range a [Location] header is not acted on: an answer
    with status below 300 or from 400 up goes to the response classifier and
    is sent as a body, never as a redirect, whatever its [Location] says. *)
Theorem location_ignored_outside_3xx
    (newURL : string -> option string -> completion URL)
    (JSDOM : string -> string -> completion Document)
    (domCalls : Document -> completion unit)
    (serialize : Document -> completion string) (decode : list Byte.byte -> string)
    (world : string -> FetchInit -> completion UpstreamResponse)
    (req : Request) (url : URL) (response : UpstreamResponse) :
  isEmpty (params0 req) = false ->
  newURL (withProtocol (params0 req)) None = Normal url ->
  world (withProtocol (params0 req)) (fetchInit req url) = Normal response ->
  (status response < 300 \/ 400 <= status response)%Z ->
  fst (run world (app newURL JSDOM domCalls serialize decode req))
    = classify newURL JSDOM domCalls serialize decode (withProtocol (params0 req)) response
        (cacheConfiguration freshResponse) /\
  exists body,
    sent (fst (run world (app newURL JSDOM domCalls serialize decode req))) = Some (Send body).
Proof.
  intros Hne Hparse Hfetch Hstatus. unfold app.
  rewrite (run_fetched _ _ _ _ _ _ _ _ _ _ Hne Hparse Hfetch). cbn [fst].
  assert (Hno : redirectLocation response = None).
  { unfold redirectLocation.
    destruct (300 <=? status response)%Z eqn:E1; [|reflexivity].
    destruct (status response <? 400)%Z eqn:E2; [|reflexivity].
    apply Z.leb_le in E1. apply Z.ltb_lt in E2. lia. }
  unfold relay. rewrite Hno. split; [reflexivity|]. apply classify_sent.
Qed.

Lemma location_ignored_outside_3xx_witness :
  fst (run (answering createdResponse)
         (app sampleURL sampleJSDOM sampleDomCalls sampleSerialize sampleDecode
            (sampleRequest "a.com/items")))
    = classify sampleURL sampleJSDOM sampleDomCalls sampleSerialize sampleDecode
        "https://a.com/items" createdResponse (cacheConfiguration freshResponse) /\
  exists body,
    sent (fst (run (answering createdResponse)
                 (app sampleURL sampleJSDOM sampleDomCalls sampleSerialize sampleDecode
                    (sampleRequest "a.com/items")))) = Some (Send body).
Proof.
  apply (location_ignored_outside_3xx sampleURL sampleJSDOM sampleDomCalls sampleSerialize
           sampleDecode (answering createdResponse) (sampleRequest "a.com/items")
           {| href := "https://a.com/items"; origin := "https://a.com" |}
           createdResponse).
  - reflexivity.
  - reflexivity.
  - reflexivity.
  - left. simpl. lia.
Defined.

(** X12. In a pass-through answer the upstream's [cache-control], when it has
    one, replaces the [no-cache, no-store, must-revalidate] that the cache
    middleware had set; without one the middleware's value stays. *)
Theorem passthrough_cache_control
    (newURL : string -> option string -> completion URL)
    (JSDOM : string -> string -> completion Document)
    (domCalls : Document -> completion unit)
    (serialize : Document -> completion string) (decode : list Byte.byte -> string)
    (world : string -> FetchInit -> completion UpstreamResponse)
    (req : Request) (url : URL) (response : UpstreamResponse) (buf : list Byte.byte) :
  isEmpty (params0 req) = false ->
  newURL (withProtocol (params0 req)) None = Normal url ->
  world (withProtocol (params0 req)) (fetchInit req url) = Normal response ->
  redirectLocation response = None ->
  buffer response = Normal buf ->
  includes (orDefault (headersGet "content-type" (headers response)) EmptyString)
    "text/html" = false ->
  resHeaders (fst (run world (app newURL JSDOM domCalls serialize decode req)))
    !! "cache-control" =
  match lastHeader "cache-control" (headers response) with
  | Some v => Some v
  | None => Some "no-cache, no-store, must-revalidate"
  end.
Proof.
  intros Hne Hparse Hfetch Hredirect Hbuf Hct.
  rewrite (run_classified _ _ _ _ _ _ _ _ _ _ Hne Hparse Hfetch Hredirect Hbuf).
  cbv zeta. rewrite Hct, passThrough_cache_control.
  by destruct (lastHeader _ _).
Qed.

Lemma passthrough_cache_control_witness :
  resHeaders (fst (run (answering createdResponse)
                     (app sampleURL sampleJSDOM sampleDomCalls sampleSerialize sampleDecode
                        (sampleRequest "a.com/items"))))
    !! "cache-control" = Some "max-age=60".
Proof.
  apply (passthrough_cache_control sampleURL sampleJSDOM sampleDomCalls sampleSerialize sampleDecode
           (answering createdResponse) (sampleRequest "a.com/items")
           {| href := "https://a.com/items"; origin := "https://a.com" |}
           createdResponse sampleBody); reflexivity.
Defined.

(** X13. Every answer of the proxy route has a [cache-control] header. It is
    the middleware's [no-cache, no-store, must-revalidate], except when an
    upstream response with a [cache-control] of its own was fetched, in which
    case it may be the upstream's. *)
Theorem cache_control_always_set
    (newURL : string -> option string -> completion URL)
    (JSDOM : string -> string -> completion Document)
    (domCalls : Document -> completion unit)
    (serialize : Document -> completion string) (decode : list Byte.byte -> string)
    (world : string -> FetchInit -> completion UpstreamResponse) (req : Request) :
  resHeaders (fst (run world (app newURL JSDOM domCalls serialize decode req)))
    !! "cache-control" = Some "no-cache, no-store, must-revalidate" \/
  exists url response v,
    newURL (withProtocol (params0 req)) None = Normal url /\
    world (withProtocol (params0 req)) (fetchInit req url) = Normal response /\
    lastHeader "cache-control" (headers response) = Some v /\
    resHeaders (fst (run world (app newURL JSDOM domCalls serialize decode req)))
      !! "cache-control" = Some v.
Proof.
  assert (Hmw : resHeaders (cacheConfiguration freshResponse) !! "cache-control"
                = Some "no-cache, no-store, must-revalidate").
  { unfold cacheConfiguration, res_set. cbn [resHeaders].
    change (toLowerCase "Cache-Control") with "cache-control".
    apply lookup_insert_eq. }
  unfold app.
  destruct (isEmpty (params0 req)) eqn:Hne.
  { rewrite run_missing_target by exact Hne. by left. }
  destruct (newURL (withProtocol (params0 req)) None) as [url|error] eqn:Hparse.
  2:{ rewrite (run_invalid_target _ _ _ _ _ _ _ _ _ Hne Hparse). by left. }
  destruct (world (withProtocol (params0 req)) (fetchInit req url))
    as [response|error] eqn:Hfetch.
  2:{ rewrite (run_fetch_failed _ _ _ _ _ _ _ _ _ _ Hne Hparse Hfetch). by left. }
  rewrite (run_fetched _ _ _ _ _ _ _ _ _ _ Hne Hparse Hfetch). cbn [fst].
  destruct (relay_cache_control newURL JSDOM domCalls serialize decode
              (withProtocol (params0 req)) response (cacheConfiguration freshResponse))
    as [-> | (v & Hv & Hcc)]; [by left|].
  right. exists url, response, v. auto.
Qed.

(** X14. The script callback does not flag its own placeholder: applying it
    to a script it has already been applied to changes nothing. *)
Theorem neutralizeScript_idempotent (script : Element) :
  neutralizeScript (neutralizeScript script) = neutralizeScript script.
Proof.
  unfold neutralizeScript. rewrite !orDefault_textContent.
  destruct (frameBusting (textContent script)) eqn:E.
  - cbn [textContent setTextContent].
    change (frameBusting "// Frame busting removed") with false. reflexivity.
  - by rewrite E.
Qed.

(** X15. A translated redirect passes on nothing of the upstream answer but
    the resolved target: when [res.redirect] is called the handler has set
    no header, so the response carries express's [X-Powered-By], the
    middleware's [cache-control] and nothing of the upstream's (no
    [set-cookie], say), and no [X-Proxy-By] marker. *)
Theorem redirect_drops_upstream_headers
    (newURL : string -> option string -> completion URL)
    (JSDOM : string -> string -> completion Document)
    (domCalls : Document -> completion unit)
    (serialize : Document -> completion string) (decode : list Byte.byte -> string)
    (world : string -> FetchInit -> completion UpstreamResponse)
    (req : Request) (url : URL) (response : UpstreamResponse)
    (location : string) (redirect : URL) :
  isEmpty (params0 req) = false ->
  newURL (withProtocol (params0 req)) None = Normal url ->
  world (withProtocol (params0 req)) (fetchInit req url) = Normal response ->
  redirectLocation response = Some location ->
  newURL location (Some (withProtocol (params0 req))) = Normal redirect ->
  resHeaders (fst (run world (app newURL JSDOM domCalls serialize decode req)))
    = resHeaders (cacheConfiguration freshResponse) /\
  forall k, k <> "cache-control" -> k <> "x-powered-by" ->
    resHeaders (fst (run world (app newURL JSDOM domCalls serialize decode req))) !! k
    = None.
Proof.
  intros Hne Hparse Hfetch Hloc Hresolve. unfold app.
  rewrite (run_fetched _ _ _ _ _ _ _ _ _ _ Hne Hparse Hfetch). cbn [fst].
  unfold relay. rewrite Hloc, Hresolve. cbn [resHeaders res_redirect].
  split; [reflexivity|]. intros k Hk1 Hk2. rewrite freshResponse_lookup.
  apply String.eqb_neq in Hk1, Hk2. by rewrite Hk1, Hk2.
Qed.

Lemma redirect_drops_upstream_headers_witness :
  resHeaders (fst (run (answering redirectResponse)
                     (app sampleURL sampleJSDOM sampleDomCalls sampleSerialize
                        sampleDecode (sampleRequest "a.com/old"))))
    = resHeaders (cacheConfiguration freshResponse) /\
  forall k, k <> "cache-control" -> k <> "x-powered-by" ->
    resHeaders (fst (run (answering redirectResponse)
                       (app sampleURL sampleJSDOM sampleDomCalls sampleSerialize
                          sampleDecode (sampleRequest "a.com/old")))) !! k = None.
Proof.
  apply (redirect_drops_upstream_headers sampleURL sampleJSDOM sampleDomCalls
           sampleSerialize sampleDecode (answering redirectResponse)
           (sampleRequest "a.com/old")
           {| href := "https://a.com/old"; origin := "https://a.com" |}
           redirectResponse "/new"
           {| href := "https://a.com/new"; origin := "https://a.com" |});
    reflexivity.
Defined.

(** X16. The HTML branch takes the fallback only when something inside
    [modifyHtml] throws.  When jsdom parses the decoded body, its DOM calls
    return and [dom.serialize()] returns, the answer is the serialized
    document after the two loops and the [base] step, rewritten against the
    URL the handler parsed from the target (the second [new URL] of the same
    string cannot divert it), sent as [text/html; charset=utf-8]. *)
Theorem html_answer_is_rewritten_document
    (newURL : string -> option string -> completion URL)
    (JSDOM : string -> string -> completion Document)
    (domCalls : Document -> completion unit)
    (serialize : Document -> completion string) (decode : list Byte.byte -> string)
    (world : string -> FetchInit -> completion UpstreamResponse)
    (req : Request) (url : URL) (response : UpstreamResponse) (buf : list Byte.byte)
    (document : Document) (html : string) :
  isEmpty (params0 req) = false ->
  newURL (withProtocol (params0 req)) None = Normal url ->
  world (withProtocol (params0 req)) (fetchInit req url) = Normal response ->
  redirectLocation response = None ->
  buffer response = Normal buf ->
  includes (orDefault (headersGet "content-type" (headers response)) EmptyString)
    "text/html" = true ->
  JSDOM (decode buf) (withProtocol (params0 req)) = Normal document ->
  domCalls document = Normal tt ->
  serialize (modifyDocument newURL (withProtocol (params0 req)) url document)
    = Normal html ->
  sent (fst (run world (app newURL JSDOM domCalls serialize decode req)))
    = Some (Send (Text html)) /\
  res_get "Content-Type"
    (fst (run world (app newURL JSDOM domCalls serialize decode req)))
    = Some "text/html; charset=utf-8".
Proof.
  intros Hne Hparse Hfetch Hredirect Hbuf Hct Hdom Hcalls Hser.
  rewrite (run_classified _ _ _ _ _ _ _ _ _ _ Hne Hparse Hfetch Hredirect Hbuf).
  cbv zeta. rewrite Hct. unfold htmlBranch, modifyHtml.
  rewrite Hdom, Hparse, Hcalls, Hser.
  split; [reflexivity|]. unfold res_get. cbn [resHeaders res_send].
  rewrite res_set_content_type. apply lookup_insert_eq.
Qed.

Lemma html_answer_is_rewritten_document_witness :
  sent (fst (run (answering notFoundPage)
               (app sampleURL sampleJSDOM sampleDomCalls sampleSerialize sampleDecode
                  (sampleRequest "a.com/missing"))))
    = Some (Send (Text (render
                          (modifyDocument sampleURL "https://a.com/missing"
                             {| href := "https://a.com/missing";
                                origin := "https://a.com" |}
                             sampleDocument)))) /\
  res_get "Content-Type"
    (fst (run (answering notFoundPage)
            (app sampleURL sampleJSDOM sampleDomCalls sampleSerialize sampleDecode
               (sampleRequest "a.com/missing"))))
    = Some "text/html; charset=utf-8".
Proof.
  apply (html_answer_is_rewritten_document sampleURL sampleJSDOM sampleDomCalls
           sampleSerialize sampleDecode (answering notFoundPage)
           (sampleRequest "a.com/missing")
           {| href := "https://a.com/missing"; origin := "https://a.com" |}
           notFoundPage samplePage sampleDocument); reflexivity.
Defined.
